(** * EzWallet: the users and groups controller

    A shallow embedding of [code/controllers/users.js]: the request
    handlers [getUser], [createGroup], [addToGroup], [removeFromGroup],
    [deleteUser], [deleteGroup] and the classifier [checkGroupEmails],
    over an explicit model of the three MongoDB collections. *)

From Stdlib Require Import String Ascii List Bool Arith Lia.
Import ListNotations.
Open Scope string_scope.

(** ** JavaScript values and exceptions *)

(** The dynamic values the controller handles: request fields are either
    absent ([undefined]) or strings, and the arrays returned by
    [checkGroupEmails] hold whatever its [map] callbacks return. *)
Inductive value : Type :=
| VUndefined
| VString (s : string).

Definition value_eqb (a b : value) : bool :=
  match a, b with
  | VUndefined, VUndefined => true
  | VString x, VString y => String.eqb x y
  | _, _ => false
  end.

Inductive exn : Type :=
| TypeError (msg : string).

Definition message (e : exn) : string :=
  match e with TypeError msg => msg end.

(** ** Data model (models/User.js, models/model.js) *)

Record User := mkUser {
  username : string;
  email : string;
  role : string;
  refreshToken : option string
}.

Record Member := mkMember {
  m_email : value;
  m_user : option User
}.

Record Group := mkGroup {
  g_name : string;
  members : list Member
}.

(** Modelled from the spec: models/model.js is not part of the sources.
    The controller reads transactions by [username] and deletes them by
    [email]; a stored transaction is modelled by these two fields, with
    [tr_email] being [None] when the document carries no such field. *)
Record Transaction := mkTransaction {
  tr_username : string;
  tr_email : option string
}.

Record Store := mkStore {
  users : list User;
  groups : list Group;
  transactions : list Transaction
}.

(** ** Requests and responses *)

Record Request := mkRequest {
  body_name : value;                      (* req.body.name *)
  body_memberEmails : option (list string); (* req.body.memberEmails *)
  body_email : value;                     (* req.body.email *)
  params_name : value;                    (* req.params.name *)
  params_username : value;                (* req.params.username *)
  cookies_refreshToken : value;           (* req.cookies.refreshToken *)
  path : string                           (* req.path *)
}.

(** [res.locals] as the handler finds it. *)
Record Locals := mkLocals {
  refreshedTokenMessage : value
}.

Inductive Body : Type :=
| JError (error : string)       (* { error: ... } *)
| JMessage (msg : string)       (* { message: ... } *)
| JString (s : string)          (* a bare string *)
| JUser (u_username u_email u_role : string) (rtm : value)
| JGroupData (name : value) (group_members alreadyInGroup membersNotFound : list value)
             (rtm : value)
| JGroupRemoved (name : value) (group_members notInGroup membersNotFound : list value)
| JDeletedUser (deletedTransactionsNumber : nat) (isRemovedFromGroup : bool)
               (rtm : value).

Record Response := mkResponse {
  status : nat;
  body : Body
}.

Record AuthResult := mkAuth {
  authorized : bool;
  cause : string
}.

(** ** The effect monad: storage state and thrown exceptions *)

Inductive outcome (A : Type) : Type :=
| Returned (a : A)
| Threw (e : exn).
Arguments Returned {A} a.
Arguments Threw {A} e.

Definition M (A : Type) : Type := Store -> outcome A * Store.

Definition ret {A} (a : A) : M A := fun st => (Returned a, st).

Definition bind {A B} (m : M A) (k : A -> M B) : M B :=
  fun st =>
    match m st with
    | (Returned a, st') => k a st'
    | (Threw e, st') => (Threw e, st')
    end.

Definition throw {A} (e : exn) : M A := fun st => (Threw e, st).

Notation "x <- m ;; k" := (bind m (fun x => k))
  (at level 61, m at next level, right associativity).
Notation "' pat <- m ;; k" := (bind m (fun x => let pat := x in k))
  (at level 61, pat pattern, m at next level, right associativity).

(** [try { ... } catch (error) { ... }] around a whole handler body; the
    catch blocks of the controller only send a response. *)
Definition try_catch {A} (m : M A) (handler : exn -> A) : Store -> A * Store :=
  fun st =>
    match m st with
    | (Returned a, st') => (a, st')
    | (Threw e, st') => (handler e, st')
    end.

(** [Array.prototype.forEach] with an effectful callback. *)
Fixpoint forEach {A} (arr : list A) (callback : A -> M unit) : M unit :=
  match arr with
  | [] => ret tt
  | x :: rest => _ <- callback x ;; forEach rest callback
  end.

(** [Promise.all(arr.map(async (e) => ...))]. *)
Fixpoint promise_all_map {A B} (arr : list A) (f : A -> M B) : M (list B) :=
  match arr with
  | [] => ret []
  | x :: rest =>
      y <- f x ;;
      ys <- promise_all_map rest f ;;
      ret (y :: ys)
  end.

(** Reading property [email] of a value: [undefined.email] throws, while
    a string has no such property. *)
Definition get_email (e : value) : M value :=
  match e with
  | VUndefined =>
      throw (TypeError "Cannot read properties of undefined (reading 'email')")
  | VString _ => ret VUndefined
  end.

(** ** The persistence layer (Mongoose models)

    A query document is a boolean filter on stored documents.  A query
    value [undefined] is sent as [null] and matches only an absent
    field; storage calls themselves do not fail in this model. *)

Definition nullable (o : option string) : value :=
  match o with Some s => VString s | None => VUndefined end.

(* { email: q } *)
Definition email_is (q : value) (u : User) : bool :=
  value_eqb q (VString (email u)).

(* { refreshToken: q } *)
Definition refreshToken_is (q : value) (u : User) : bool :=
  value_eqb q (nullable (refreshToken u)).

(* { name: q } *)
Definition name_is (q : value) (g : Group) : bool :=
  value_eqb q (VString (g_name g)).

(* { 'members.email': q } *)
Definition members_email_is (q : value) (g : Group) : bool :=
  existsb (fun m => value_eqb q (m_email m)) (members g).

(* { username: q } on transactions *)
Definition tr_username_is (q : string) (t : Transaction) : bool :=
  String.eqb q (tr_username t).

(* { email: q } on transactions *)
Definition tr_email_is (q : string) (t : Transaction) : bool :=
  value_eqb (VString q) (nullable (tr_email t)).

Definition User_findOne (filter : User -> bool) : M (option User) :=
  fun st => (Returned (find filter (users st)), st).

Definition User_deleteMany (filter : User -> bool) : M nat :=
  fun st =>
    (Returned (List.length (List.filter filter (users st))),
     mkStore (List.filter (fun u => negb (filter u)) (users st))
             (groups st) (transactions st)).

Definition Group_findOne (filter : Group -> bool) : M (option Group) :=
  fun st => (Returned (find filter (groups st)), st).

Definition Group_deleteMany (filter : Group -> bool) : M nat :=
  fun st =>
    (Returned (List.length (List.filter filter (groups st))),
     mkStore (users st)
             (List.filter (fun g => negb (filter g)) (groups st))
             (transactions st)).

(* new Group({ name, members }).save() *)
Definition Group_save (g : Group) : M Group :=
  fun st =>
    (Returned g, mkStore (users st) (groups st ++ [g]) (transactions st)).

(** [updateOne] rewrites the first document that matches the filter. *)
Fixpoint update_first (filter : Group -> bool) (upd : Group -> Group)
         (gs : list Group) : list Group :=
  match gs with
  | [] => []
  | g :: rest =>
      if filter g then upd g :: rest
      else g :: update_first filter upd rest
  end.

Definition Group_updateOne (filter : Group -> bool) (upd : Group -> Group)
  : M unit :=
  fun st =>
    (Returned tt,
     mkStore (users st) (update_first filter upd (groups st))
             (transactions st)).

(* { $push: { members: { $each: toAdd } } } *)
Definition push_members (toAdd : list Member) (g : Group) : Group :=
  mkGroup (g_name g) (members g ++ toAdd).

Definition option_string_eqb (a b : option string) : bool :=
  match a, b with
  | Some x, Some y => String.eqb x y
  | None, None => true
  | _, _ => false
  end.

Definition User_eqb (a b : User) : bool :=
  String.eqb (username a) (username b) && String.eqb (email a) (email b)
  && String.eqb (role a) (role b)
  && option_string_eqb (refreshToken a) (refreshToken b).

Definition option_User_eqb (a b : option User) : bool :=
  match a, b with
  | Some x, Some y => User_eqb x y
  | None, None => true
  | _, _ => false
  end.

(* a condition { email: ..., user: ... } on an element of members *)
Definition member_matches (cond m : Member) : bool :=
  value_eqb (m_email cond) (m_email m)
  && option_User_eqb (m_user cond) (m_user m).

(* { $pull: { members: { $or: conds } } } *)
Definition pull_members (conds : list Member) (g : Group) : Group :=
  mkGroup (g_name g)
          (List.filter (fun m => negb (existsb (fun c => member_matches c m) conds))
                       (members g)).

Definition transactions_find (filter : Transaction -> bool)
  : M (list Transaction) :=
  fun st => (Returned (List.filter filter (transactions st)), st).

Definition transactions_deleteMany (filter : Transaction -> bool) : M nat :=
  fun st =>
    (Returned (List.length (List.filter filter (transactions st))),
     mkStore (users st) (groups st)
             (List.filter (fun t => negb (filter t)) (transactions st))).

(** [Group.find()] that is not awaited is a Mongoose [Query] object, not
    the array of documents; a [Query] has no [forEach] method. *)
Inductive Query (A : Type) : Type :=
| PendingFind.
Arguments PendingFind {A}.

Definition Group_find : Query Group := PendingFind.

Definition Query_forEach {A} (q : Query A) (callee : string)
           (callback : A -> M unit) : M unit :=
  throw (TypeError (callee ++ ".forEach is not a function")).

(** Assignment to a binding declared with [const]. *)
Definition assign_const (name : string) : M unit :=
  throw (TypeError "Assignment to constant variable.").

(** ** Route intent: [req.path.split('/').slice(-1)[0]] *)

Fixpoint split (sep : ascii) (s : string) : list string :=
  match s with
  | EmptyString => [EmptyString]
  | String c rest =>
      if Ascii.eqb c sep then EmptyString :: split sep rest
      else match split sep rest with
           | [] => [String c EmptyString]
           | seg :: segs => String c seg :: segs
           end
  end.

(* arr.slice(-1) *)
Definition slice_last {A} (arr : list A) : list A :=
  match rev arr with
  | [] => []
  | x :: _ => [x]
  end.

(* arr[0] *)
Definition index0 (arr : list string) : value :=
  match arr with
  | [] => VUndefined
  | x :: _ => VString x
  end.

Definition last_segment (p : string) : value :=
  index0 (slice_last (split "/" p)).

(** ** checkGroupEmails *)

(** Modelled from the spec: [asyncFilter] of controllers/utils.js is not
    part of the sources.  It runs the predicate on every element and
    keeps the elements whose result is truthy; the predicates of
    [checkGroupEmails] also push to an array of the enclosing scope,
    threaded here as [acc]. *)
Fixpoint asyncFilter {A S} (arr : list A) (predicate : A -> S -> M (bool * S))
         (acc : S) : M (list A * S) :=
  match arr with
  | [] => ret ([], acc)
  | e :: rest =>
      '(keep, acc1) <- predicate e acc ;;
      '(kept, acc2) <- asyncFilter rest predicate acc1 ;;
      ret (if keep then e :: kept else kept, acc2)
  end.

Definition truthy {A} (o : option A) : bool :=
  match o with Some _ => true | None => false end.

Definition push {A} (arr : list A) (x : A) : list A := arr ++ [x].

(** The arrays as they stand before the final [return] (lines 435-460). *)
Record Classification := mkClassification {
  c_memberEmails : list string;
  c_alreadyInGroup : list string;
  c_membersNotFound : list string;
  c_notInGroup : list string
}.

Definition classifyEmails (memberEmails : list string) (groupName : value)
  : M Classification :=
  '(memberEmails, membersNotFound) <-
    asyncFilter memberEmails
      (fun e membersNotFound =>
         result <- User_findOne (email_is (VString e)) ;;
         ret (truthy result,
              if truthy result then membersNotFound else push membersNotFound e))
      [] ;;
  match groupName with
  | VUndefined =>
      '(memberEmails, alreadyInGroup) <-
        asyncFilter memberEmails
          (fun e alreadyInGroup =>
             result <- Group_findOne (members_email_is (VString e)) ;;
             ret (negb (truthy result),
                  if truthy result then push alreadyInGroup e else alreadyInGroup))
          [] ;;
      ret (mkClassification memberEmails alreadyInGroup membersNotFound [])
  | _ =>
      '(memberEmails, notInGroup) <-
        asyncFilter memberEmails
          (fun e notInGroup =>
             result <- Group_findOne
                         (fun g => name_is groupName g
                                   && members_email_is (VString e) g) ;;
             ret (truthy result,
                  if truthy result then notInGroup else push notInGroup e))
          [] ;;
      ret (mkClassification memberEmails [] membersNotFound notInGroup)
  end.

Record CheckResult := mkCheckResult {
  validEmails : list value;
  alreadyInGroup : list value;
  membersNotFound : list value;
  notInGroup : list value
}.

(** The callbacks of the final maps are [(email) => { email; }]: a block
    body without a [return], whose result is [undefined]. *)
Definition checkGroupEmails (memberEmails : list string) (groupName : value)
  : M CheckResult :=
  c <- classifyEmails memberEmails groupName ;;
  ret (mkCheckResult
         (map (fun email => VUndefined) (c_memberEmails c))
         (map (fun email => VUndefined) (c_alreadyInGroup c))
         (map (fun email => VUndefined) (c_membersNotFound c))
         (map (fun email => VUndefined) (c_notInGroup c))).

(** ** The handlers *)

Section Controller.

(** The collaborators of controllers/utils.js, which is not part of the
    sources: the two authorization checks, called with the request, the
    response and the [authType] of their third argument, and the
    syntactic email check. *)
Variable verifyAuth : Request -> Locals -> string -> AuthResult.
Variable verifyMultipleAuth : Request -> Locals -> list string -> AuthResult.
Variable isEmail : string -> bool.

(* res.status(s).json(b) *)
Definition status_json (s : nat) (b : Body) : M Response :=
  ret (mkResponse s b).

(* the callback that builds one member from one entry of validEmails *)
Definition build_member (e : value) : M Member :=
  email1 <- get_email e ;;
  email2 <- get_email e ;;
  user <- User_findOne (email_is email2) ;;
  ret (mkMember email1 user).

(* (await Group.findOne(...)).members *)
Definition members_of (g : option Group) : M (list Member) :=
  match g with
  | Some g => ret (members g)
  | None => throw (TypeError "Cannot read properties of null (reading 'members')")
  end.

Definition getUser (req : Request) (res : Locals) : Store -> Response * Store :=
  try_catch
    (let auth := verifyMultipleAuth req res ["User"; "Admin"] in
     if negb (authorized auth) then status_json 401 (JError (cause auth)) else
     let username' := params_username req in
     user <- User_findOne (refreshToken_is (cookies_refreshToken req)) ;;
     match user with
     | None => status_json 400 (JError "User not found")
     | Some user =>
         status_json 200
           (JUser (username user) (email user) (role user)
                  (refreshedTokenMessage res))
     end)
    (fun error => mkResponse 500 (JError (message error))).

Definition createGroup (req : Request) (res : Locals) : Store -> Response * Store :=
  try_catch
    (let name := body_name req in
     let memberEmails := body_memberEmails req in
     match name, memberEmails with
     | VUndefined, _ | _, None => status_json 401 (JMessage "Missing parameters")
     | VString name_s, Some memberEmails =>
         let auth := verifyAuth req res "Group" in
         if negb (authorized auth) then status_json 401 (JError (cause auth)) else
         existing <- Group_findOne (name_is name) ;;
         if truthy existing then
           status_json 401 (JError "A group with the same name already exists")
         else
         r <- checkGroupEmails memberEmails VUndefined ;;
         if Nat.eqb (List.length (validEmails r)) 0 then
           status_json 401 (JError "All the emails are invalid")
         else
         members' <- promise_all_map (validEmails r) build_member ;;
         group <- Group_save (mkGroup name_s members') ;;
         status_json 200
           (JGroupData (VString (g_name group))
                       (map (fun m => VUndefined) (members group))
                       (alreadyInGroup r) (membersNotFound r)
                       (refreshedTokenMessage res))
     end)
    (fun error => mkResponse 500 (JError (message error))).

Definition addToGroup (req : Request) (res : Locals) : Store -> Response * Store :=
  try_catch
    (let name := params_name req in
     let memberEmails := body_memberEmails req in
     match name, memberEmails with
     | VUndefined, _ | _, None =>
         status_json 400
           (JError "The request body does not contain all the necessary attributes")
     | VString _, Some memberEmails =>
         let auth := verifyMultipleAuth req res ["User"; "Admin"] in
         if negb (authorized auth) then status_json 401 (JError (cause auth)) else
         match
           (if value_eqb (last_segment (path req)) (VString "add") then
              let auth := verifyAuth req res "Group" in
              if negb (authorized auth)
              then Some (mkResponse 401 (JError (cause auth))) else None
            else if value_eqb (last_segment (path req)) (VString "insert") then
              let auth := verifyAuth req res "Admin" in
              if negb (authorized auth)
              then Some (mkResponse 401 (JError (cause auth))) else None
            else Some (mkResponse 400 (JError "Path not correct")))
         with
         | Some early => ret early
         | None =>
             found <- Group_findOne (name_is name) ;;
             if negb (truthy found) then status_json 400 (JError "Group not found") else
             if existsb (fun email => negb (isEmail email)) memberEmails then
               status_json 400 (JError "Mail not valid")
             else
             r <- checkGroupEmails memberEmails VUndefined ;;
             if Nat.eqb (List.length (validEmails r)) 0 then
               status_json 400 (JError "All the emails are invalid")
             else
             membersToAdd <- promise_all_map (validEmails r) build_member ;;
             _ <- Group_updateOne (name_is (params_name req))
                                  (push_members membersToAdd) ;;
             updated <- Group_findOne (name_is name) ;;
             ms <- members_of updated ;;
             status_json 200
               (JGroupData name (map (fun m => VUndefined) ms)
                           (alreadyInGroup r) (membersNotFound r)
                           (refreshedTokenMessage res))
         end
     end)
    (fun error => mkResponse 500 (JError (message error))).

Definition removeFromGroup (req : Request) (res : Locals)
  : Store -> Response * Store :=
  try_catch
    (let name := params_name req in
     let memberEmails := body_memberEmails req in
     match memberEmails with
     | None => status_json 401 (JError "Missing parameters")
     | Some memberEmails =>
         match
           (if value_eqb (last_segment (path req)) (VString "remove") then
              let auth := verifyAuth req res "Group" in
              if negb (authorized auth)
              then Some (mkResponse 401 (JError (cause auth))) else None
            else if value_eqb (last_segment (path req)) (VString "pull") then
              let auth := verifyAuth req res "Admin" in
              if negb (authorized auth)
              then Some (mkResponse 401 (JError (cause auth))) else None
            else Some (mkResponse 400 (JError "Path not correct")))
         with
         | Some early => ret early
         | None =>
             found <- Group_findOne (name_is name) ;;
             if negb (truthy found) then status_json 401 (JError "Group not found") else
             r <- checkGroupEmails memberEmails name ;;
             if Nat.eqb (List.length (validEmails r)) 0 then
               status_json 401 (JError "All the emails are invalid")
             else
             membersToRemove <- promise_all_map (validEmails r) build_member ;;
             _ <- Group_updateOne (name_is (params_name req))
                                  (pull_members membersToRemove) ;;
             updated <- Group_findOne (name_is name) ;;
             ms <- members_of updated ;;
             status_json 200
               (JGroupRemoved name (map (fun m => VUndefined) ms)
                              (notInGroup r) (membersNotFound r))
         end
     end)
    (fun error => mkResponse 500 (JError (message error))).

Definition deleteUser (req : Request) (res : Locals) : Store -> Response * Store :=
  try_catch
    (let AdminAuth := verifyAuth req res "Admin" in
     if negb (authorized AdminAuth) then
       status_json 401 (JMessage "Unauthorized: user is not an admin!")
     else
     let email := body_email req in
     match email with
     | VUndefined => status_json 400 (JMessage "Missing parameters")
     | VString email_s =>
         if negb (isEmail email_s) then status_json 400 (JError "Mail not valid") else
         user <- User_findOne (email_is email) ;;
         match user with
         | None => status_json 400 (JMessage "User not found")
         | Some user =>
             findTransactions <-
               transactions_find (tr_username_is (username user)) ;;
             (* console.log(findTransactions) *)
             let transactionsNumber := List.length findTransactions in
             deletedTransactions <- transactions_deleteMany (tr_email_is email_s) ;;
             let userGroup := Group_find in
             let emailExists := false in
             _ <- Query_forEach userGroup "userGroup"
                    (fun group =>
                       forEach (members group)
                         (fun member =>
                            if value_eqb (m_email member) email
                            then assign_const "emailExists"
                            else ret tt)) ;;
             deleteUser <- User_deleteMany (email_is email) ;;
             status_json 200
               (JDeletedUser transactionsNumber emailExists
                             (refreshedTokenMessage res))
         end
     end)
    (fun err => mkResponse 500 (JString (message err))).

Definition deleteGroup (req : Request) (res : Locals) : Store -> Response * Store :=
  try_catch
    (let AdminAuth := verifyAuth req res "Admin" in
     if negb (authorized AdminAuth) then
       status_json 401 (JMessage "Unauthorized: user is not an admin!")
     else
     let name := body_name req in
     if value_eqb name VUndefined then
       status_json 400 (JMessage "Missing parameters")
     else
     if value_eqb name (VString "") then
       status_json 400 (JMessage "the request body is an empty string")
     else
     let auth := verifyAuth req res "Group" in
     if negb (authorized auth) then status_json 401 (JMessage (cause auth)) else
     deletedCount <- Group_deleteMany (name_is (body_name req)) ;;
     if Nat.eqb deletedCount 0 then status_json 400 (JMessage "Group not found") else
     status_json 200 (JMessage "Group deleted"))
    (fun err => mkResponse 500 (JString (message err))).

(** ** Specification vocabulary *)

(** The lookups of [checkGroupEmails] as functions of the store. *)
Definition registered (st : Store) (e : string) : bool :=
  truthy (find (email_is (VString e)) (users st)).

Definition in_some_group (st : Store) (e : string) : bool :=
  truthy (find (members_email_is (VString e)) (groups st)).

Definition in_group_named (st : Store) (g : value) (e : string) : bool :=
  truthy (find (fun gr => name_is g gr && members_email_is (VString e) gr)
               (groups st)).

(** What [classifyEmails] computes, as filters of the input. *)
Definition classification (st : Store) (memberEmails : list string)
           (groupName : value) : Classification :=
  let found := filter (registered st) memberEmails in
  let notFound := filter (fun e => negb (registered st e)) memberEmails in
  match groupName with
  | VUndefined =>
      mkClassification (filter (fun e => negb (in_some_group st e)) found)
                       (filter (in_some_group st) found)
                       notFound []
  | _ =>
      mkClassification (filter (in_group_named st groupName) found)
                       []
                       notFound
                       (filter (fun e => negb (in_group_named st groupName e)) found)
  end.

Definition undefined_arrays (c : Classification) : CheckResult :=
  mkCheckResult (map (fun _ => VUndefined) (c_memberEmails c))
                (map (fun _ => VUndefined) (c_alreadyInGroup c))
                (map (fun _ => VUndefined) (c_membersNotFound c))
                (map (fun _ => VUndefined) (c_notInGroup c)).

Definition disjoint {A} (l1 l2 : list A) : Prop :=
  forall x, In x l1 -> ~ In x l2.

Definition pairwise_disjoint {A} (a b c d : list A) : Prop :=
  disjoint a b /\ disjoint a c /\ disjoint a d /\
  disjoint b c /\ disjoint b d /\ disjoint c d.

Definition occurrences (e : string) (l : list string) : nat :=
  count_occ string_dec l e.

(** Case normalisation of an email string, as the specification words it. *)
Definition lower_ascii (c : ascii) : ascii :=
  let n := nat_of_ascii c in
  if (65 <=? n)%nat && (n <=? 90)%nat then ascii_of_nat (n + 32) else c.

Fixpoint toLowerCase (s : string) : string :=
  match s with
  | EmptyString => EmptyString
  | String c rest => String (lower_ascii c) (toLowerCase rest)
  end.

Definition distinct_normalized (memberEmails : list string) : list string :=
  nodup string_dec (map toLowerCase memberEmails).

(** The partition property in the specification's words: the four
    returned sets are pairwise disjoint, hold no repeated entry, and
    their union is the set of distinct, case-normalised input emails. *)
Definition spec_partition (memberEmails : list string) (r : CheckResult) : Prop :=
  pairwise_disjoint (validEmails r) (alreadyInGroup r)
                    (membersNotFound r) (notInGroup r) /\
  NoDup (validEmails r ++ alreadyInGroup r ++ membersNotFound r ++ notInGroup r) /\
  (forall v,
      In v (validEmails r ++ alreadyInGroup r ++ membersNotFound r ++ notInGroup r)
      <-> exists e, In e (distinct_normalized memberEmails) /\ v = VString e).

(** ** The five orchestrated operations and their phases *)

Inductive Operation : Type :=
| OpCreateGroup
| OpAddToGroup
| OpRemoveFromGroup
| OpDeleteUser
| OpDeleteGroup.

Definition handle (op : Operation) : Request -> Locals -> Store -> Response * Store :=
  match op with
  | OpCreateGroup => createGroup
  | OpAddToGroup => addToGroup
  | OpRemoveFromGroup => removeFromGroup
  | OpDeleteUser => deleteUser
  | OpDeleteGroup => deleteGroup
  end.

Definition route_is (req : Request) (segment : string) : bool :=
  value_eqb (last_segment (path req)) (VString segment).

(** The capability check selected by the trailing path segment: [self]
    asks for [Group], [admin] for [Admin]; no check is made on any other
    segment. *)
Definition route_authorised (req : Request) (res : Locals) (self admin : string)
  : bool :=
  if route_is req self then authorized (verifyAuth req res "Group")
  else if route_is req admin then authorized (verifyAuth req res "Admin")
  else true.

(** Every authorization check the operation makes succeeds. *)
Definition authorised (op : Operation) (req : Request) (res : Locals) : bool :=
  match op with
  | OpCreateGroup => authorized (verifyAuth req res "Group")
  | OpAddToGroup =>
      authorized (verifyMultipleAuth req res ["User"; "Admin"])
      && route_authorised req res "add" "insert"
  | OpRemoveFromGroup => route_authorised req res "remove" "pull"
  | OpDeleteUser => authorized (verifyAuth req res "Admin")
  | OpDeleteGroup =>
      authorized (verifyAuth req res "Admin")
      && authorized (verifyAuth req res "Group")
  end.

(** Number of entries of [validEmails] that [checkGroupEmails] returns. *)
Definition valid_count (st : Store) (memberEmails : list string)
           (groupName : value) : nat :=
  match fst (checkGroupEmails memberEmails groupName st) with
  | Returned r => List.length (validEmails r)
  | Threw _ => 0
  end.

Definition group_exists (st : Store) (name : value) : bool :=
  truthy (find (name_is name) (groups st)).

(** Every validation the operation makes succeeds. *)
Definition validated (op : Operation) (req : Request) (st : Store) : bool :=
  match op with
  | OpCreateGroup =>
      match body_name req, body_memberEmails req with
      | VString n, Some ms =>
          negb (group_exists st (VString n))
          && negb (Nat.eqb (valid_count st ms VUndefined) 0)
      | _, _ => false
      end
  | OpAddToGroup =>
      match params_name req, body_memberEmails req with
      | VString n, Some ms =>
          (route_is req "add" || route_is req "insert")
          && group_exists st (VString n)
          && forallb isEmail ms
          && negb (Nat.eqb (valid_count st ms VUndefined) 0)
      | _, _ => false
      end
  | OpRemoveFromGroup =>
      match body_memberEmails req with
      | Some ms =>
          (route_is req "remove" || route_is req "pull")
          && group_exists st (params_name req)
          && negb (Nat.eqb (valid_count st ms (params_name req)) 0)
      | None => false
      end
  | OpDeleteUser =>
      match body_email req with
      | VString e => isEmail e && registered st e
      | VUndefined => false
      end
  | OpDeleteGroup =>
      match body_name req with
      | VString n => negb (String.eqb n "") && group_exists st (VString n)
      | VUndefined => false
      end
  end.

(** The checks an operation runs ahead of an authorization check: the
    parameters of the three group operations are tested first, and
    [deleteGroup] tests [name] between its two authorization checks. *)
Definition reaches_authorization (op : Operation) (req : Request) (res : Locals)
  : bool :=
  match op with
  | OpCreateGroup =>
      match body_name req, body_memberEmails req with
      | VString _, Some _ => true
      | _, _ => false
      end
  | OpAddToGroup =>
      match params_name req, body_memberEmails req with
      | VString _, Some _ => true
      | _, _ => false
      end
  | OpRemoveFromGroup =>
      match body_memberEmails req with Some _ => true | None => false end
  | OpDeleteUser => true
  | OpDeleteGroup =>
      negb (authorized (verifyAuth req res "Admin"))
      || match body_name req with
         | VString n => negb (String.eqb n "")
         | VUndefined => false
         end
  end.

(** The response of the first authorization check that fails. *)
Definition unauthorized_response (op : Operation) (req : Request) (res : Locals)
  : Response :=
  match op with
  | OpCreateGroup => mkResponse 401 (JError (cause (verifyAuth req res "Group")))
  | OpAddToGroup =>
      if authorized (verifyMultipleAuth req res ["User"; "Admin"]) then
        if route_is req "add"
        then mkResponse 401 (JError (cause (verifyAuth req res "Group")))
        else mkResponse 401 (JError (cause (verifyAuth req res "Admin")))
      else mkResponse 401 (JError (cause (verifyMultipleAuth req res ["User"; "Admin"])))
  | OpRemoveFromGroup =>
      if route_is req "remove"
      then mkResponse 401 (JError (cause (verifyAuth req res "Group")))
      else mkResponse 401 (JError (cause (verifyAuth req res "Admin")))
  | OpDeleteUser => mkResponse 401 (JMessage "Unauthorized: user is not an admin!")
  | OpDeleteGroup =>
      if authorized (verifyAuth req res "Admin")
      then mkResponse 401 (JMessage (cause (verifyAuth req res "Group")))
      else mkResponse 401 (JMessage "Unauthorized: user is not an admin!")
  end.

Definition is_group_operation (op : Operation) : bool :=
  match op with
  | OpCreateGroup | OpAddToGroup | OpRemoveFromGroup => true
  | _ => false
  end.

Definition internal_error : Response :=
  mkResponse 500
    (JError "Cannot read properties of undefined (reading 'email')").

(** ** Frame of a membership update *)

(** From [st] to [st'] nothing but the [members] of groups named [name]
    differs: same users and transactions, the same group records in the
    same order with the same names, every other group identical. *)
Definition only_members_changed (name : value) (st st' : Store) : Prop :=
  users st' = users st /\
  transactions st' = transactions st /\
  Forall2 (fun g g' => g_name g' = g_name g /\ (name_is name g = false -> g' = g))
          (groups st) (groups st').

Definition with_username (u : value) (req : Request) : Request :=
  mkRequest (body_name req) (body_memberEmails req) (body_email req)
            (params_name req) u (cookies_refreshToken req) (path req).

(** ** Concrete collaborators, stores and requests *)

Definition allow (_ : Request) (_ : Locals) (_ : string) : AuthResult :=
  mkAuth true "Authorized".

Definition allowMultiple (_ : Request) (_ : Locals) (_ : list string) : AuthResult :=
  mkAuth true "Authorized".

Definition deny (_ : Request) (_ : Locals) (_ : string) : AuthResult :=
  mkAuth false "Unauthorized".

Definition denyMultiple (_ : Request) (_ : Locals) (_ : list string) : AuthResult :=
  mkAuth false "Unauthorized".

(* a stand-in for the syntactic check: the string holds an at sign *)
Fixpoint has_at (s : string) : bool :=
  match s with
  | EmptyString => false
  | String c rest => Ascii.eqb c "@" || has_at rest
  end.

Definition alice : User := mkUser "alice" "a@x.com" "Regular" (Some "token-a").
Definition bob : User := mkUser "bob" "b@x.com" "Regular" (Some "token-b").

Definition family : Group :=
  mkGroup "Family" [mkMember (VString "a@x.com") (Some alice)].

(** Two users, Alice in group Family, Bob in no group; Alice has two
    stored transactions. *)
Definition store0 : Store :=
  mkStore [alice; bob] [family]
          [mkTransaction "alice" None; mkTransaction "alice" None;
           mkTransaction "bob" None].

Definition locals0 : Locals := mkLocals VUndefined.

Definition request (name : value) (memberEmails : option (list string))
           (p : string) : Request :=
  mkRequest name memberEmails VUndefined name VUndefined (VString "token-a") p.

Definition delete_alice : Request :=
  mkRequest VUndefined None (VString "a@x.com") VUndefined VUndefined
            (VString "token-a") "/users".

(** [e] is placed in the list [l] and in none of the other three. *)
Definition placed_in (e : string) (l o1 o2 o3 : list string) : Prop :=
  In e l /\ ~ In e o1 /\ ~ In e o2 /\ ~ In e o3.

(** The body of a documented success of a group operation. *)
Definition is_group_body (b : Body) : bool :=
  match b with
  | JGroupData _ _ _ _ _ | JGroupRemoved _ _ _ _ => true
  | _ => false
  end.

Definition all_undefined (l : list value) : Prop :=
  Forall (fun v => v = VUndefined) l.

Definition create_friends : Request :=
  request (VString "Friends") (Some ["b@x.com"]) "/groups".

Definition add_bob : Request :=
  request (VString "Family") (Some ["b@x.com"]) "/groups/Family/add".

Definition remove_alice : Request :=
  request (VString "Family") (Some ["a@x.com"]) "/groups/Family/remove".

Definition leave_family : Request :=
  request (VString "Family") (Some ["a@x.com"]) "/groups/Family/leave".

Definition leave_without_emails : Request :=
  request (VString "Family") None "/groups/Family/leave".

Definition add_without_emails : Request :=
  request (VString "Family") None "/groups/Family/add".

Definition add_without_name : Request :=
  request VUndefined (Some ["b@x.com"]) "/groups/add".

Definition join_family : Request :=
  request (VString "Family") (Some ["b@x.com"]) "/groups/Family/join".

Definition create_family : Request :=
  request (VString "Family") (Some ["b@x.com"]) "/groups".

Definition create_with_bad_email : Request :=
  request (VString "Friends") (Some ["not-an-email"]) "/groups".

(** ** The read handlers: getUsers, getGroups, getGroup *)

Record UserView := mkUserView {
  v_username : string;
  v_email : string;
  v_role : string
}.

Record GroupView := mkGroupView {
  v_name : string;
  v_members : list value
}.

(** The bodies these three handlers send. *)
Inductive QueryBody : Type :=
| QError (error : string)                       (* { error: ... } *)
| QMessage (msg : string)                       (* { message: ... } *)
| QUsers (data : list UserView) (rtm : value)   (* { data, refreshedTokenMessage } *)
| QGroups (data : list GroupView) (rtm : value) (* { data, refreshedTokenMessage } *)
| QGroup (data : GroupView) (data_rtm : value) (rtm : value).
    (* { data: { name, members, refreshedTokenMessage }, refreshedTokenMessage } *)

Record QueryResponse := mkQueryResponse {
  q_status : nat;
  q_body : QueryBody
}.

(* await User.find() *)
Definition User_find : M (list User) :=
  fun st => (Returned (users st), st).

(* await Group.find() *)
Definition Group_find_awaited : M (list Group) :=
  fun st => (Returned (groups st), st).

Definition getUsers (req : Request) (res : Locals)
  : Store -> QueryResponse * Store :=
  try_catch
    (let auth := verifyAuth req res "Admin" in
     if negb (authorized auth) then
       ret (mkQueryResponse 401 (QError (cause auth)))
     else
     found <- User_find ;;
     let users' :=
       map (fun user => mkUserView (username user) (email user) (role user))
           found in
     ret (mkQueryResponse 200 (QUsers users' (refreshedTokenMessage res))))
    (fun error => mkQueryResponse 500 (QError (message error))).

Definition getGroups (req : Request) (res : Locals)
  : Store -> QueryResponse * Store :=
  try_catch
    (let AdminAuth := verifyAuth req res "Admin" in
     if negb (authorized AdminAuth) then
       ret (mkQueryResponse 401 (QMessage "Unauthorized: user is not an admin!"))
     else
     found <- Group_find_awaited ;;
     let groups' :=
       map (fun group =>
              mkGroupView (g_name group)
                          (map (fun m => m_email m) (members group)))
           found in
     ret (mkQueryResponse 200 (QGroups groups' (refreshedTokenMessage res))))
    (fun error => mkQueryResponse 500 (QError (message error))).

(** The object literal of [responseGroup] names [members] twice, with
    the same value; it also holds [refreshedTokenMessage], which the
    response carries a second time beside [data]. *)
Definition getGroup (req : Request) (res : Locals)
  : Store -> QueryResponse * Store :=
  try_catch
    (let auth := verifyMultipleAuth req res ["User"; "Admin"] in
     if negb (authorized auth) then
       ret (mkQueryResponse 401 (QError (cause auth)))
     else
     let name := params_name req in
     group <- Group_findOne (name_is name) ;;
     match group with
     | None => ret (mkQueryResponse 400 (QError "Group not found"))
     | Some group =>
         let responseGroup :=
           mkGroupView (g_name group)
                       (map (fun m => m_email m) (members group)) in
         ret (mkQueryResponse 200
                (QGroup responseGroup (refreshedTokenMessage res)
                        (refreshedTokenMessage res)))
     end)
    (fun error => mkQueryResponse 500 (QError (message error))).

(** ** Vocabulary of the further properties *)

Definition user_view (u : User) : UserView :=
  mkUserView (username u) (email u) (role u).

Definition group_view (g : Group) : GroupView :=
  mkGroupView (g_name g) (map (fun m => m_email m) (members g)).

(* the entry of a listing is the group asked for *)
Definition view_named (name : value) (v : GroupView) : bool :=
  value_eqb name (VString (v_name v)).

Fixpoint slash_free (s : string) : bool :=
  match s with
  | EmptyString => true
  | String c rest => negb (Ascii.eqb c "/") && slash_free rest
  end.

(** A candidate that the classifier does not keep in validEmails. *)
Definition not_valid (st : Store) (groupName : value) (e : string) : bool :=
  negb (registered st e)
  || match groupName with
     | VUndefined => in_some_group st e
     | _ => negb (in_group_named st groupName e)
     end.

Definition admin_only (_ : Request) (_ : Locals) (authType : string) : AuthResult :=
  if String.eqb authType "Admin" then mkAuth true "Authorized"
  else mkAuth false "Unauthorized".

Definition insert_bob : Request :=
  request (VString "Family") (Some ["b@x.com"]) "/groups/Family/insert".

Definition delete_family : Request :=
  request (VString "Family") None "/groups".

Definition get_family : Request :=
  request (VString "Family") None "/groups/Family".

(** The capability that the trailing path segment makes the handler ask
    of [verifyAuth]: [Group] on the [self] route, [Admin] on the [admin]
    route, none on any other. *)
Definition required_capability (req : Request) (self admin : string)
  : option string :=
  if route_is req self then Some "Group"
  else if route_is req admin then Some "Admin"
  else None.

Definition create_with_alice : Request :=
  request (VString "Friends") (Some ["a@x.com"]) "/groups".

Definition add_to_missing_group : Request :=
  request (VString "Nobody") (Some ["b@x.com"]) "/groups/Nobody/add".

(** ** Properties of the classifier *)

Lemma bind_returned {A B} (m : M A) (k : A -> M B) st a st' :
  m st = (Returned a, st') -> bind m k st = k a st'.
Proof. intros H. unfold bind. now rewrite H. Qed.

(** A predicate that only reads the store makes [asyncFilter] a pair of
    list filters. *)
Lemma asyncFilter_pure {A} (p q : A -> bool) (predicate : A -> list A -> M (bool * list A)) st :
  (forall e acc,
      predicate e acc st = (Returned (p e, if q e then push acc e else acc), st)) ->
  forall arr acc,
    asyncFilter arr predicate acc st
    = (Returned (filter p arr, (acc ++ filter q arr)%list), st).
Proof.
  intros Hpred arr. induction arr as [|e rest IH]; intros acc; simpl.
  - unfold ret. now rewrite app_nil_r.
  - rewrite (bind_returned _ _ _ _ _ (Hpred e acc)).
    rewrite (bind_returned _ _ _ _ _ (IH _)).
    unfold ret, push. destruct (p e), (q e); simpl;
      now rewrite <- ?app_assoc.
Qed.

Lemma classifyEmails_eq st memberEmails groupName :
  classifyEmails memberEmails groupName st
  = (Returned (classification st memberEmails groupName), st).
Proof.
  unfold classifyEmails.
  erewrite bind_returned; cycle 1.
  { apply (asyncFilter_pure (registered st) (fun e => negb (registered st e))).
    intros e acc. unfold bind, User_findOne, ret, registered.
    now destruct (find _ (users st)). }
  cbn beta iota. destruct groupName as [|g].
  - erewrite bind_returned; cycle 1.
    { apply (asyncFilter_pure (fun e => negb (in_some_group st e)) (in_some_group st)).
      intros e acc. unfold bind, Group_findOne, ret, in_some_group.
      now destruct (find _ (groups st)). }
    reflexivity.
  - erewrite bind_returned; cycle 1.
    { apply (asyncFilter_pure (in_group_named st (VString g))
                              (fun e => negb (in_group_named st (VString g) e))).
      intros e acc. unfold bind, Group_findOne, ret, in_group_named.
      now destruct (find _ (groups st)). }
    reflexivity.
Qed.

Lemma checkGroupEmails_eq st memberEmails groupName :
  checkGroupEmails memberEmails groupName st
  = (Returned (undefined_arrays (classification st memberEmails groupName)), st).
Proof.
  unfold checkGroupEmails.
  now rewrite (bind_returned _ _ _ _ _ (classifyEmails_eq st memberEmails groupName)).
Qed.

Lemma occurrences_filter (p : string -> bool) l e :
  occurrences e (filter p l) = if p e then occurrences e l else 0.
Proof.
  unfold occurrences. induction l as [|x l IH]; simpl.
  - now destruct (p e).
  - destruct (p x) eqn:Hx; simpl; destruct (string_dec x e) as [->|Hne];
      rewrite IH; try rewrite Hx; reflexivity.
Qed.

Lemma occurrences_split (p : string -> bool) l e :
  occurrences e l
  = occurrences e (filter p l) + occurrences e (filter (fun x => negb (p x)) l).
Proof.
  rewrite !occurrences_filter. destruct (p e); simpl; lia.
Qed.

Lemma filter_disjoint (p : string -> bool) l1 l2 :
  disjoint (filter p l1) (filter (fun x => negb (p x)) l2).
Proof.
  intros x H1 H2. apply filter_In in H1, H2.
  destruct H1 as [_ H1], H2 as [_ H2]. rewrite H1 in H2. discriminate.
Qed.

Lemma disjoint_sym {A} (l1 l2 : list A) : disjoint l1 l2 -> disjoint l2 l1.
Proof. intros H x H2 H1. exact (H x H1 H2). Qed.

Lemma disjoint_incl_l {A} (l1 l1' l2 : list A) :
  incl l1' l1 -> disjoint l1 l2 -> disjoint l1' l2.
Proof. intros Hi H x H1. apply H, Hi, H1. Qed.

Lemma disjoint_nil_r {A} (l : list A) : disjoint l [].
Proof. intros x _ []. Qed.

Lemma disjoint_nil_l {A} (l : list A) : disjoint [] l.
Proof. intros x []. Qed.

Lemma classification_disjoint st memberEmails groupName :
  let c := classification st memberEmails groupName in
  pairwise_disjoint (c_memberEmails c) (c_alreadyInGroup c)
                    (c_membersNotFound c) (c_notInGroup c).
Proof.
  assert (Hnf : forall q,
             disjoint (filter q (filter (registered st) memberEmails))
                      (filter (fun e => negb (registered st e)) memberEmails)).
  { intros q.
    apply (disjoint_incl_l (filter (registered st) memberEmails));
      [|apply filter_disjoint].
    intros x Hx. apply filter_In in Hx. tauto. }
  destruct groupName as [|g]; cbn; unfold pairwise_disjoint;
    repeat split;
    auto using disjoint_nil_r, disjoint_nil_l, filter_disjoint, disjoint_sym.
Qed.

Lemma classification_occurrences st memberEmails groupName e :
  let c := classification st memberEmails groupName in
  occurrences e memberEmails
  = occurrences e (c_memberEmails c) + occurrences e (c_alreadyInGroup c)
    + occurrences e (c_membersNotFound c) + occurrences e (c_notInGroup c).
Proof.
  destruct groupName as [|g]; cbn.
  - rewrite (occurrences_split (registered st) memberEmails e).
    rewrite (occurrences_split (in_some_group st) (filter (registered st) memberEmails) e).
    unfold occurrences. lia.
  - rewrite (occurrences_split (registered st) memberEmails e).
    rewrite (occurrences_split (in_group_named st (VString g))
                               (filter (registered st) memberEmails) e).
    unfold occurrences. lia.
Qed.

Lemma filter_not_In (p : string -> bool) l e :
  p e = false -> ~ In e (filter p l).
Proof. intros Hp H. apply filter_In in H. destruct H as [_ H]. congruence. Qed.

Lemma filter_In_intro (p : string -> bool) l e :
  In e l -> p e = true -> In e (filter p l).
Proof. intros. apply filter_In. now split. Qed.

(** C1 (amended): the four lists that checkGroupEmails has built when it
    reaches its return statement are pairwise disjoint and split the
    candidate list occurrence by occurrence: an email occurs in the input
    as many times as in the four lists together, so it is in the input
    exactly when it is in one of them, and a repeated candidate is
    repeated inside a single list.  Emails are taken as given, with no
    de-duplication and no case normalisation.  The four returned arrays
    have the lengths of these lists. *)
Theorem C1_classification_partitions_occurrences
        (st : Store) (memberEmails : list string) (groupName : value) :
  exists c r,
    classifyEmails memberEmails groupName st = (Returned c, st) /\
    checkGroupEmails memberEmails groupName st = (Returned r, st) /\
    pairwise_disjoint (c_memberEmails c) (c_alreadyInGroup c)
                      (c_membersNotFound c) (c_notInGroup c) /\
    (forall e,
        occurrences e memberEmails
        = occurrences e (c_memberEmails c) + occurrences e (c_alreadyInGroup c)
          + occurrences e (c_membersNotFound c) + occurrences e (c_notInGroup c)) /\
    (forall e,
        In e memberEmails <->
        In e (c_memberEmails c) \/ In e (c_alreadyInGroup c) \/
        In e (c_membersNotFound c) \/ In e (c_notInGroup c)) /\
    List.length (validEmails r) = List.length (c_memberEmails c) /\
    List.length (alreadyInGroup r) = List.length (c_alreadyInGroup c) /\
    List.length (membersNotFound r) = List.length (c_membersNotFound c) /\
    List.length (notInGroup r) = List.length (c_notInGroup c).
Proof.
  exists (classification st memberEmails groupName),
         (undefined_arrays (classification st memberEmails groupName)).
  split; [apply classifyEmails_eq|].
  split; [apply checkGroupEmails_eq|].
  split; [apply classification_disjoint|].
  split; [intros e; apply classification_occurrences|].
  split.
  - intros e.
    pose proof (classification_occurrences st memberEmails groupName e) as Hocc.
    cbv zeta in Hocc. unfold occurrences in Hocc.
    rewrite !(count_occ_In string_dec). lia.
  - unfold undefined_arrays; cbn. now rewrite !length_map.
Qed.

(** The lists that lines 439-460 of checkGroupEmails build, before the
    final maps: an email of no registered user is placed in
    membersNotFound and in no other list; an email of a registered user
    is, without a target group, placed in alreadyInGroup when some group
    has it as a member and in the kept memberEmails otherwise, and, with
    a target group, placed in the kept memberEmails when that group has
    it as a member and in notInGroup otherwise. *)
Lemma classification_rules
        (st : Store) (memberEmails : list string) (groupName : value)
        (e : string) (Hin : In e memberEmails) :
  exists c,
    classifyEmails memberEmails groupName st = (Returned c, st) /\
    (registered st e = false ->
     placed_in e (c_membersNotFound c)
               (c_memberEmails c) (c_alreadyInGroup c) (c_notInGroup c)) /\
    (registered st e = true -> groupName = VUndefined ->
     (in_some_group st e = true ->
      placed_in e (c_alreadyInGroup c)
                (c_memberEmails c) (c_membersNotFound c) (c_notInGroup c)) /\
     (in_some_group st e = false ->
      placed_in e (c_memberEmails c)
                (c_alreadyInGroup c) (c_membersNotFound c) (c_notInGroup c))) /\
    (registered st e = true -> groupName <> VUndefined ->
     (in_group_named st groupName e = true ->
      placed_in e (c_memberEmails c)
                (c_alreadyInGroup c) (c_membersNotFound c) (c_notInGroup c)) /\
     (in_group_named st groupName e = false ->
      placed_in e (c_notInGroup c)
                (c_memberEmails c) (c_alreadyInGroup c) (c_membersNotFound c))).
Proof.
  exists (classification st memberEmails groupName).
  split; [apply classifyEmails_eq|].
  assert (Hfound : registered st e = true ->
                   In e (filter (registered st) memberEmails))
    by (intros; now apply filter_In_intro).
  unfold placed_in.
  repeat split; intros; subst; try destruct groupName as [|g];
    try congruence; cbn;
    try (intros []);
    try (apply filter_In_intro; auto; now rewrite ?negb_true_iff);
    try (apply filter_not_In; now rewrite ?negb_false_iff);
    try (intros Hc; apply filter_In in Hc; destruct Hc as [Hc _];
         revert Hc; apply filter_not_In; now rewrite ?negb_false_iff).
Qed.

(** ** Normal forms of the handlers *)

Lemma valid_count_eq st memberEmails groupName :
  valid_count st memberEmails groupName
  = List.length (c_memberEmails (classification st memberEmails groupName)).
Proof.
  unfold valid_count. rewrite checkGroupEmails_eq. cbn. apply length_map.
Qed.

Lemma createGroup_eq req res st :
  createGroup req res st
  = (match body_name req, body_memberEmails req with
     | VString n, Some ms =>
         if negb (authorized (verifyAuth req res "Group")) then
           mkResponse 401 (JError (cause (verifyAuth req res "Group")))
         else if group_exists st (VString n) then
           mkResponse 401 (JError "A group with the same name already exists")
         else if Nat.eqb (valid_count st ms VUndefined) 0 then
           mkResponse 401 (JError "All the emails are invalid")
         else internal_error
     | _, _ => mkResponse 401 (JMessage "Missing parameters")
     end, st).
Proof.
  unfold createGroup, try_catch, status_json, group_exists.
  destruct (body_name req) as [|n], (body_memberEmails req) as [ms|];
    try reflexivity.
  destruct (authorized (verifyAuth req res "Group")); [|reflexivity].
  cbn. unfold bind at 1. cbn.
  destruct (find (name_is (VString n)) (groups st)); [reflexivity|].
  cbn. rewrite valid_count_eq, checkGroupEmails_eq.
  generalize (classification st ms VUndefined). intros [[|e v] a nf ni];
    reflexivity.
Qed.

Lemma addToGroup_eq req res st :
  addToGroup req res st
  = (match params_name req, body_memberEmails req with
     | VString n, Some ms =>
         let multi := verifyMultipleAuth req res ["User"; "Admin"] in
         let after_route :=
           if negb (group_exists st (VString n)) then
             mkResponse 400 (JError "Group not found")
           else if existsb (fun email => negb (isEmail email)) ms then
             mkResponse 400 (JError "Mail not valid")
           else if Nat.eqb (valid_count st ms VUndefined) 0 then
             mkResponse 400 (JError "All the emails are invalid")
           else internal_error in
         if negb (authorized multi) then mkResponse 401 (JError (cause multi))
         else if route_is req "add" then
           if negb (authorized (verifyAuth req res "Group"))
           then mkResponse 401 (JError (cause (verifyAuth req res "Group")))
           else after_route
         else if route_is req "insert" then
           if negb (authorized (verifyAuth req res "Admin"))
           then mkResponse 401 (JError (cause (verifyAuth req res "Admin")))
           else after_route
         else mkResponse 400 (JError "Path not correct")
     | _, _ =>
         mkResponse 400
           (JError "The request body does not contain all the necessary attributes")
     end, st).
Proof.
  assert (Hrest : forall n ms,
    try_catch
      (found <- Group_findOne (name_is (VString n)) ;;
       if negb (truthy found) then status_json 400 (JError "Group not found") else
       if existsb (fun email => negb (isEmail email)) ms then
         status_json 400 (JError "Mail not valid")
       else
       r <- checkGroupEmails ms VUndefined ;;
       if Nat.eqb (List.length (validEmails r)) 0 then
         status_json 400 (JError "All the emails are invalid")
       else
       membersToAdd <- promise_all_map (validEmails r) build_member ;;
       _ <- Group_updateOne (name_is (params_name req))
                            (push_members membersToAdd) ;;
       updated <- Group_findOne (name_is (VString n)) ;;
       ms' <- members_of updated ;;
       status_json 200
         (JGroupData (VString n) (map (fun m => VUndefined) ms')
                     (alreadyInGroup r) (membersNotFound r)
                     (refreshedTokenMessage res)))
      (fun error => mkResponse 500 (JError (message error))) st
    = (if negb (group_exists st (VString n)) then
         mkResponse 400 (JError "Group not found")
       else if existsb (fun email => negb (isEmail email)) ms then
         mkResponse 400 (JError "Mail not valid")
       else if Nat.eqb (valid_count st ms VUndefined) 0 then
         mkResponse 400 (JError "All the emails are invalid")
       else internal_error, st)).
  { intros n ms. unfold try_catch, status_json, group_exists.
    unfold bind at 1. cbn.
    destruct (find (name_is (VString n)) (groups st)); [|reflexivity].
    cbn. destruct (existsb _ ms); [reflexivity|].
    unfold bind at 1. rewrite valid_count_eq, checkGroupEmails_eq.
    generalize (classification st ms VUndefined). intros [[|e v] a nf ni];
      reflexivity. }
  unfold addToGroup, route_is.
  destruct (params_name req) as [|n], (body_memberEmails req) as [ms|];
    try reflexivity.
  cbv zeta.
  destruct (authorized (verifyMultipleAuth req res ["User"; "Admin"]));
    [|reflexivity].
  cbn [negb].
  destruct (value_eqb (last_segment (path req)) (VString "add")).
  - destruct (authorized (verifyAuth req res "Group")); [|reflexivity].
    apply Hrest.
  - destruct (value_eqb (last_segment (path req)) (VString "insert")).
    + destruct (authorized (verifyAuth req res "Admin")); [|reflexivity].
      apply Hrest.
    + reflexivity.
Qed.

Lemma removeFromGroup_eq req res st :
  removeFromGroup req res st
  = (match body_memberEmails req with
     | Some ms =>
         let after_route :=
           if negb (group_exists st (params_name req)) then
             mkResponse 401 (JError "Group not found")
           else if Nat.eqb (valid_count st ms (params_name req)) 0 then
             mkResponse 401 (JError "All the emails are invalid")
           else internal_error in
         if route_is req "remove" then
           if negb (authorized (verifyAuth req res "Group"))
           then mkResponse 401 (JError (cause (verifyAuth req res "Group")))
           else after_route
         else if route_is req "pull" then
           if negb (authorized (verifyAuth req res "Admin"))
           then mkResponse 401 (JError (cause (verifyAuth req res "Admin")))
           else after_route
         else mkResponse 400 (JError "Path not correct")
     | None => mkResponse 401 (JError "Missing parameters")
     end, st).
Proof.
  assert (Hrest : forall ms,
    try_catch
      (found <- Group_findOne (name_is (params_name req)) ;;
       if negb (truthy found) then status_json 401 (JError "Group not found") else
       r <- checkGroupEmails ms (params_name req) ;;
       if Nat.eqb (List.length (validEmails r)) 0 then
         status_json 401 (JError "All the emails are invalid")
       else
       membersToRemove <- promise_all_map (validEmails r) build_member ;;
       _ <- Group_updateOne (name_is (params_name req))
                            (pull_members membersToRemove) ;;
       updated <- Group_findOne (name_is (params_name req)) ;;
       ms' <- members_of updated ;;
       status_json 200
         (JGroupRemoved (params_name req) (map (fun m => VUndefined) ms')
                        (notInGroup r) (membersNotFound r)))
      (fun error => mkResponse 500 (JError (message error))) st
    = (if negb (group_exists st (params_name req)) then
         mkResponse 401 (JError "Group not found")
       else if Nat.eqb (valid_count st ms (params_name req)) 0 then
         mkResponse 401 (JError "All the emails are invalid")
       else internal_error, st)).
  { intros ms. unfold try_catch, status_json, group_exists.
    unfold bind at 1. cbn.
    destruct (find (name_is (params_name req)) (groups st)); [|reflexivity].
    cbn. unfold bind at 1. rewrite valid_count_eq, checkGroupEmails_eq.
    generalize (classification st ms (params_name req)).
    intros [[|e v] a nf ni]; reflexivity. }
  unfold removeFromGroup, route_is.
  destruct (body_memberEmails req) as [ms|]; [|reflexivity].
  cbv zeta.
  destruct (value_eqb (last_segment (path req)) (VString "remove")).
  - destruct (authorized (verifyAuth req res "Group")); [|reflexivity].
    apply Hrest.
  - destruct (value_eqb (last_segment (path req)) (VString "pull")).
    + destruct (authorized (verifyAuth req res "Admin")); [|reflexivity].
      apply Hrest.
    + reflexivity.
Qed.

Lemma getUser_eq req res st :
  getUser req res st
  = (let auth := verifyMultipleAuth req res ["User"; "Admin"] in
     if negb (authorized auth) then mkResponse 401 (JError (cause auth))
     else match find (refreshToken_is (cookies_refreshToken req)) (users st) with
          | None => mkResponse 400 (JError "User not found")
          | Some user =>
              mkResponse 200 (JUser (username user) (email user) (role user)
                                    (refreshedTokenMessage res))
          end, st).
Proof.
  unfold getUser, try_catch, status_json. cbv zeta.
  destruct (authorized (verifyMultipleAuth req res ["User"; "Admin"]));
    [|reflexivity].
  cbn. now destruct (find _ (users st)).
Qed.

Lemma deleteUser_eq req res st :
  deleteUser req res st
  = (if negb (authorized (verifyAuth req res "Admin")) then
       (mkResponse 401 (JMessage "Unauthorized: user is not an admin!"), st)
     else match body_email req with
          | VUndefined => (mkResponse 400 (JMessage "Missing parameters"), st)
          | VString e =>
              if negb (isEmail e) then (mkResponse 400 (JError "Mail not valid"), st)
              else if registered st e then
                (mkResponse 500 (JString "userGroup.forEach is not a function"),
                 mkStore (users st) (groups st)
                         (filter (fun t => negb (tr_email_is e t)) (transactions st)))
              else (mkResponse 400 (JMessage "User not found"), st)
          end).
Proof.
  unfold deleteUser, try_catch, status_json, registered. cbv zeta.
  destruct (authorized (verifyAuth req res "Admin")); [|reflexivity].
  cbn [negb]. destruct (body_email req) as [|e]; [reflexivity|].
  destruct (isEmail e); [|reflexivity].
  cbn. now destruct (find (email_is (VString e)) (users st)).
Qed.

Lemma deleteGroup_eq req res st :
  deleteGroup req res st
  = (if negb (authorized (verifyAuth req res "Admin")) then
       (mkResponse 401 (JMessage "Unauthorized: user is not an admin!"), st)
     else match body_name req with
          | VUndefined => (mkResponse 400 (JMessage "Missing parameters"), st)
          | VString n =>
              if String.eqb n "" then
                (mkResponse 400 (JMessage "the request body is an empty string"), st)
              else if negb (authorized (verifyAuth req res "Group")) then
                (mkResponse 401 (JMessage (cause (verifyAuth req res "Group"))), st)
              else
                (if Nat.eqb (List.length (filter (name_is (VString n)) (groups st))) 0
                 then mkResponse 400 (JMessage "Group not found")
                 else mkResponse 200 (JMessage "Group deleted"),
                 mkStore (users st)
                         (filter (fun g => negb (name_is (VString n) g)) (groups st))
                         (transactions st))
          end).
Proof.
  unfold deleteGroup, try_catch, status_json. cbv zeta.
  destruct (authorized (verifyAuth req res "Admin")); [|reflexivity].
  cbn [negb]. destruct (body_name req) as [|n]; [reflexivity|].
  cbn [value_eqb]. destruct (String.eqb n ""); [reflexivity|].
  destruct (authorized (verifyAuth req res "Group")); [|reflexivity].
  cbn. now destruct (Nat.eqb _ 0).
Qed.

Lemma filter_none (A : Type) (f : A -> bool) (l : list A) :
  find f l = None -> filter (fun x => negb (f x)) l = l /\ filter f l = [].
Proof.
  induction l as [|x l IH]; simpl; [auto|].
  destruct (f x); [discriminate|]. intros H. destruct (IH H) as [-> ->]. auto.
Qed.

Lemma existsb_negb_forallb {A} (f : A -> bool) (l : list A) :
  existsb (fun x => negb (f x)) l = negb (forallb f l).
Proof.
  induction l as [|x l IH]; simpl; [reflexivity|].
  rewrite IH. now destruct (f x).
Qed.

Lemma all_undefined_map {A} (l : list A) :
  all_undefined (map (fun _ => VUndefined) l).
Proof. unfold all_undefined. induction l; simpl; constructor; auto. Qed.

Ltac split_bools :=
  repeat match goal with
         | H : _ && _ = true |- _ => apply andb_true_iff in H; destruct H
         | H : negb _ = true |- _ => apply negb_true_iff in H
         | H : _ || _ = false |- _ => apply orb_false_iff in H; destruct H
         | H : negb _ = false |- _ => apply negb_false_iff in H
         end.

Ltac rewrite_bools :=
  repeat match goal with
         | H : ?b = true |- context [?b] => rewrite H; cbn
         | H : ?b = false |- context [?b] => rewrite H; cbn
         end.

(** ** Group operations and the entries of validEmails *)

Lemma group_operation_no_success op req res st :
  is_group_operation op = true ->
  is_group_body (body (fst (handle op req res st))) = false /\
  status (fst (handle op req res st)) <> 200 /\
  snd (handle op req res st) = st.
Proof.
  destruct op; try discriminate; intros _; cbn [handle].
  - rewrite createGroup_eq.
    destruct (body_name req), (body_memberEmails req); cbn;
      repeat match goal with
             | |- context [if ?b then _ else _] => destruct b; cbn
             end; repeat split; discriminate.
  - rewrite addToGroup_eq.
    destruct (params_name req), (body_memberEmails req); cbn;
      repeat match goal with
             | |- context [if ?b then _ else _] => destruct b; cbn
             end; repeat split; discriminate.
  - rewrite removeFromGroup_eq.
    destruct (body_memberEmails req); cbn;
      repeat match goal with
             | |- context [if ?b then _ else _] => destruct b; cbn
             end; repeat split; discriminate.
Qed.

Lemma group_operation_internal_error op req res st :
  is_group_operation op = true ->
  authorised op req res = true ->
  validated op req st = true ->
  handle op req res st = (internal_error, st).
Proof.
  destruct op; try discriminate; intros _ Hauth Hvalid;
    cbn [handle authorised validated] in *.
  - rewrite createGroup_eq.
    destruct (body_name req), (body_memberEmails req); try discriminate.
    split_bools. now rewrite_bools.
  - rewrite addToGroup_eq.
    destruct (params_name req), (body_memberEmails req); try discriminate.
    unfold route_authorised in Hauth. cbv zeta.
    rewrite existsb_negb_forallb.
    destruct (route_is req "add"), (route_is req "insert");
      cbn in Hauth, Hvalid; split_bools; try discriminate; now rewrite_bools.
  - rewrite removeFromGroup_eq.
    destruct (body_memberEmails req); try discriminate.
    unfold route_authorised in Hauth. cbv zeta.
    destruct (route_is req "remove"), (route_is req "pull");
      cbn in Hauth, Hvalid; split_bools; try discriminate; now rewrite_bools.
Qed.

(** C3: every entry of the four arrays returned by checkGroupEmails is
    undefined, whatever the input.  Hence a createGroup, addToGroup or
    removeFromGroup request that passes every authorization check and
    every validation, with at least one valid email, throws on reading
    the email property of undefined while building the members and is
    answered with status 500, the store being left as it was; and no
    request to these three operations is ever answered with the
    documented success body or changes the store. *)
Theorem C3_undefined_entries_break_group_operations
        (op : Operation) (req : Request) (res : Locals) (st : Store)
        (Hop : is_group_operation op = true)
        (Hauth : authorised op req res = true)
        (Hvalid : validated op req st = true) :
  (forall memberEmails groupName st0,
      exists r,
        checkGroupEmails memberEmails groupName st0 = (Returned r, st0) /\
        all_undefined (validEmails r) /\ all_undefined (alreadyInGroup r) /\
        all_undefined (membersNotFound r) /\ all_undefined (notInGroup r)) /\
  handle op req res st = (internal_error, st) /\
  (forall req' res' st',
      is_group_body (body (fst (handle op req' res' st'))) = false /\
      status (fst (handle op req' res' st')) <> 200 /\
      snd (handle op req' res' st') = st').
Proof.
  split; [|split].
  - intros memberEmails groupName st0.
    exists (undefined_arrays (classification st0 memberEmails groupName)).
    split; [apply checkGroupEmails_eq|].
    unfold undefined_arrays; cbn [validEmails alreadyInGroup membersNotFound notInGroup].
    repeat split; apply all_undefined_map.
  - now apply group_operation_internal_error.
  - intros req' res' st'. now apply group_operation_no_success.
Qed.

(** ** Ordering of the phases *)

Lemma store_eta st : mkStore (users st) (groups st) (transactions st) = st.
Proof. now destruct st. Qed.

Lemma handle_unauthorized op req res st :
  authorised op req res = false ->
  reaches_authorization op req res = true ->
  handle op req res st = (unauthorized_response op req res, st).
Proof.
  destruct op; cbn [handle authorised reaches_authorization unauthorized_response];
    intros Hauth Hreach.
  - rewrite createGroup_eq.
    destruct (body_name req), (body_memberEmails req); try discriminate.
    now rewrite Hauth.
  - rewrite addToGroup_eq.
    destruct (params_name req), (body_memberEmails req); try discriminate.
    cbv zeta. unfold route_authorised in Hauth.
    destruct (authorized (verifyMultipleAuth req res ["User"; "Admin"]));
      [|reflexivity].
    cbn in Hauth |- *.
    destruct (route_is req "add"); [now rewrite Hauth|].
    destruct (route_is req "insert"); [now rewrite Hauth|discriminate].
  - rewrite removeFromGroup_eq.
    destruct (body_memberEmails req); try discriminate.
    cbv zeta. unfold route_authorised in Hauth.
    destruct (route_is req "remove"); [now rewrite Hauth|].
    destruct (route_is req "pull"); [now rewrite Hauth|discriminate].
  - rewrite deleteUser_eq. now rewrite Hauth.
  - rewrite deleteGroup_eq.
    destruct (authorized (verifyAuth req res "Admin")); [|reflexivity].
    cbn in Hauth, Hreach |- *.
    destruct (body_name req) as [|n]; [discriminate|].
    destruct (String.eqb n ""); [discriminate|].
    now rewrite Hauth.
Qed.

Lemma handle_no_mutation op req res st :
  authorised op req res = false \/ validated op req st = false ->
  snd (handle op req res st) = st.
Proof.
  intros H.
  destruct op;
    try (apply group_operation_no_success; reflexivity);
    cbn [handle authorised validated] in *.
  - rewrite deleteUser_eq.
    destruct (authorized (verifyAuth req res "Admin")); [|reflexivity].
    cbn [negb]. destruct (body_email req) as [|e]; [reflexivity|].
    destruct (isEmail e); [|reflexivity].
    destruct (registered st e); [|reflexivity].
    destruct H; discriminate.
  - rewrite deleteGroup_eq.
    destruct (authorized (verifyAuth req res "Admin")); [|reflexivity].
    cbn [negb]. destruct (body_name req) as [|n]; [reflexivity|].
    destruct (String.eqb n ""); [reflexivity|].
    destruct (authorized (verifyAuth req res "Group")); [|reflexivity].
    cbn [negb snd]. cbn in H. destruct H as [H|H]; [discriminate|].
    unfold group_exists in H.
    destruct (find (name_is (VString n)) (groups st)) eqn:Hfind; [discriminate|].
    destruct (filter_none _ _ _ Hfind) as [-> _]. apply store_eta.
Qed.

(** C6 (amended): an operation whose authorization fails answers with
    the response of the failed check and leaves the store as it was,
    provided the checks placed ahead of that authorization pass:
    createGroup, addToGroup and removeFromGroup test their parameters
    first, deleteGroup tests the name between its Admin and its Group
    check, and deleteUser authorizes before anything else.  In all five
    operations the store is changed only when every authorization check
    and every validation has succeeded. *)
Theorem C6_authorization_and_validation_precede_mutation
        (op : Operation) (req : Request) (res : Locals) (st : Store) :
  (authorised op req res = false ->
   reaches_authorization op req res = true ->
   handle op req res st = (unauthorized_response op req res, st)) /\
  (authorised op req res = false \/ validated op req st = false ->
   snd (handle op req res st) = st).
Proof.
  split; [apply handle_unauthorized | apply handle_no_mutation].
Qed.

(** C7 (amended): a removeFromGroup request whose trailing path segment
    is neither remove nor pull is answered 400 Path not correct whenever
    its body has memberEmails, whatever the group name, the existence of
    the group and the caller; without memberEmails it is answered 401
    Missing parameters.  The store is unchanged in both cases. *)
Theorem C7_removeFromGroup_wrong_route
        (req : Request) (res : Locals) (st : Store)
        (Hremove : route_is req "remove" = false)
        (Hpull : route_is req "pull" = false) :
  removeFromGroup req res st
  = (match body_memberEmails req with
     | Some _ => mkResponse 400 (JError "Path not correct")
     | None => mkResponse 401 (JError "Missing parameters")
     end, st).
Proof.
  rewrite removeFromGroup_eq. cbv zeta. now rewrite Hremove, Hpull.
Qed.

(** C9: two getUser requests that differ only in the username path
    parameter, with the same authorization decision, get the same
    response from the same store; once authorized, the user returned is
    the one whose refresh token is the cookie of the request, and the
    answer is 400 User not found when there is none. *)
Theorem C9_getUser_ignores_username
        (req : Request) (u1 u2 : value) (res : Locals) (st : Store)
        (Hauth : verifyMultipleAuth (with_username u1 req) res ["User"; "Admin"]
                 = verifyMultipleAuth (with_username u2 req) res ["User"; "Admin"]) :
  getUser (with_username u1 req) res st = getUser (with_username u2 req) res st /\
  (authorized (verifyMultipleAuth (with_username u1 req) res ["User"; "Admin"]) = true ->
   getUser (with_username u1 req) res st
   = (match find (refreshToken_is (cookies_refreshToken req)) (users st) with
      | None => mkResponse 400 (JError "User not found")
      | Some user =>
          mkResponse 200 (JUser (username user) (email user) (role user)
                                (refreshedTokenMessage res))
      end, st)).
Proof.
  rewrite !getUser_eq. cbv zeta. rewrite Hauth. split; [reflexivity|].
  intros Ha. now rewrite Ha.
Qed.

(** C10 (amended): when name and memberEmails are both present,
    addToGroup answers 401 with the cause of the User-or-Admin check when
    that check fails, whatever the route, and answers 401 when any of its
    authorization checks fails (Group on the add route, Admin on the
    insert route); the answer 400 Path not correct is given only to a
    caller who passed the User-or-Admin check.  A request without name or
    without memberEmails is answered 400 for its missing attributes,
    whatever the capabilities of the caller. *)
Theorem C10_addToGroup_multi_capability_first
        (req : Request) (res : Locals) (st : Store) (n : string) (ms : list string)
        (Hname : params_name req = VString n)
        (Hemails : body_memberEmails req = Some ms) :
  (authorized (verifyMultipleAuth req res ["User"; "Admin"]) = false ->
   addToGroup req res st
   = (mkResponse 401 (JError (cause (verifyMultipleAuth req res ["User"; "Admin"]))),
      st)) /\
  (authorised OpAddToGroup req res = false ->
   status (fst (addToGroup req res st)) = 401) /\
  (fst (addToGroup req res st) = mkResponse 400 (JError "Path not correct") ->
   authorized (verifyMultipleAuth req res ["User"; "Admin"]) = true /\
   route_is req "add" = false /\ route_is req "insert" = false) /\
  (forall req',
      params_name req' = VUndefined \/ body_memberEmails req' = None ->
      addToGroup req' res st
      = (mkResponse 400
           (JError "The request body does not contain all the necessary attributes"),
         st)).
Proof.
  split; [|split; [|split]].
  - intros Hm. rewrite addToGroup_eq, Hname, Hemails. cbv zeta. now rewrite Hm.
  - intros Hauth.
    change (addToGroup req res st) with (handle OpAddToGroup req res st).
    rewrite handle_unauthorized; auto.
    + cbn. destruct (authorized _); [destruct (route_is req "add")|]; reflexivity.
    + cbn. now rewrite Hname, Hemails.
  - rewrite addToGroup_eq, Hname, Hemails. cbv zeta.
    destruct (authorized (verifyMultipleAuth req res ["User"; "Admin"])); cbn;
    repeat match goal with
           | |- context [if ?b then _ else _] => destruct b; cbn
           end; intros Heq;
      first [ now auto
            | discriminate Heq
            | apply (f_equal status) in Heq; cbn in Heq; lia ].
  - intros req' Hmissing. rewrite addToGroup_eq.
    destruct (params_name req'), (body_memberEmails req'); try reflexivity.
    destruct Hmissing; discriminate.
Qed.

(** ** Frame of removeFromGroup *)

Lemma only_members_changed_refl name st : only_members_changed name st st.
Proof.
  unfold only_members_changed. repeat split.
  induction (groups st); constructor; auto.
Qed.

Lemma update_first_frame name (upd : Group -> Group) gs :
  (forall g, g_name (upd g) = g_name g) ->
  Forall2 (fun g g' => g_name g' = g_name g /\ (name_is name g = false -> g' = g))
          gs (update_first (name_is name) upd gs).
Proof.
  intros Hupd. induction gs as [|g gs IH]; simpl; [constructor|].
  destruct (name_is name g) eqn:Hg.
  - constructor; [split; [apply Hupd | congruence]|].
    clear IH. induction gs; constructor; auto.
  - constructor; auto.
Qed.

Lemma update_first_find f (upd : Group -> Group) gs g :
  find f gs = Some g -> In (upd g) (update_first f upd gs).
Proof.
  induction gs as [|x gs IH]; simpl; [discriminate|].
  destruct (f x).
  - intros [= ->]. now left.
  - intros H. right. auto.
Qed.

Lemma update_first_exists name (upd : Group -> Group) gs :
  (forall g, g_name (upd g) = g_name g) ->
  truthy (find (name_is name) (update_first (name_is name) upd gs))
  = truthy (find (name_is name) gs).
Proof.
  intros Hupd. induction gs as [|g gs IH]; simpl; [reflexivity|].
  destruct (name_is name g) eqn:Hg; simpl.
  - unfold name_is in *. rewrite Hupd, Hg. reflexivity.
  - rewrite Hg. exact IH.
Qed.

Lemma pull_members_all conds g :
  (forall m, In m (members g) ->
             existsb (fun c => member_matches c m) conds = true) ->
  pull_members conds g = mkGroup (g_name g) [].
Proof.
  intros H. unfold pull_members. f_equal.
  induction (members g) as [|m ms IH]; simpl; [reflexivity|].
  rewrite (H m) by now left. simpl. apply IH. intros m' Hm'. apply H. now right.
Qed.

(** C8: after any removeFromGroup call the store holds the same group
    records, in the same order and under the same names, the same users
    and the same transactions; only the members of the group named in
    the request may differ, so that group still exists.  The same holds
    of the update the handler issues, [$pull] on [members], whatever the
    members to remove: when every member of the group is pulled, the
    group remains with an empty members list. *)
Theorem C8_removeFromGroup_keeps_group_record
        (req : Request) (res : Locals) (st : Store) :
  let name := params_name req in
  let st' := snd (removeFromGroup req res st) in
  only_members_changed name st st' /\
  group_exists st' name = group_exists st name /\
  (forall conds,
      let st'' := snd (Group_updateOne (name_is name) (pull_members conds) st) in
      only_members_changed name st st'' /\
      group_exists st'' name = group_exists st name /\
      (forall g,
          find (name_is name) (groups st) = Some g ->
          (forall m, In m (members g) ->
                     existsb (fun c => member_matches c m) conds = true) ->
          In (mkGroup (g_name g) []) (groups st''))).
Proof.
  cbv zeta.
  assert (Hsame : snd (removeFromGroup req res st) = st)
    by (now rewrite removeFromGroup_eq).
  rewrite Hsame.
  split; [apply only_members_changed_refl|].
  split; [reflexivity|].
  intros conds. cbn [Group_updateOne snd].
  split; [|split].
  - unfold only_members_changed; cbn. repeat split.
    now apply update_first_frame.
  - unfold group_exists; cbn. now apply update_first_exists.
  - intros g Hfind Hall. cbn.
    rewrite <- (pull_members_all conds g Hall).
    now apply update_first_find.
Qed.

(** ** deleteUser *)

(** deleteUser never answers with the documented body: past the checks
    it fails on [userGroup.forEach], after the transactions were deleted
    and before the user is; users and groups are never changed. *)
Lemma deleteUser_never_completes req res st :
  status (fst (deleteUser req res st)) <> 200 /\
  users (snd (deleteUser req res st)) = users st /\
  groups (snd (deleteUser req res st)) = groups st.
Proof.
  rewrite deleteUser_eq.
  destruct (authorized (verifyAuth req res "Admin")); cbn;
    [|repeat split; discriminate].
  destruct (body_email req) as [|e]; cbn; [repeat split; discriminate|].
  destruct (isEmail e); cbn; [|repeat split; discriminate].
  destruct (registered st e); cbn; repeat split; discriminate.
Qed.

(** ** The read handlers *)

Lemma getUsers_eq req res st :
  getUsers req res st
  = (if negb (authorized (verifyAuth req res "Admin")) then
       mkQueryResponse 401 (QError (cause (verifyAuth req res "Admin")))
     else
       mkQueryResponse 200
         (QUsers (map user_view (users st)) (refreshedTokenMessage res)), st).
Proof.
  unfold getUsers, try_catch. cbv zeta.
  now destruct (authorized (verifyAuth req res "Admin")).
Qed.

Lemma getGroups_eq req res st :
  getGroups req res st
  = (if negb (authorized (verifyAuth req res "Admin")) then
       mkQueryResponse 401 (QMessage "Unauthorized: user is not an admin!")
     else
       mkQueryResponse 200
         (QGroups (map group_view (groups st)) (refreshedTokenMessage res)), st).
Proof.
  unfold getGroups, try_catch. cbv zeta.
  now destruct (authorized (verifyAuth req res "Admin")).
Qed.

Lemma getGroup_eq req res st :
  getGroup req res st
  = (let auth := verifyMultipleAuth req res ["User"; "Admin"] in
     if negb (authorized auth) then mkQueryResponse 401 (QError (cause auth))
     else match find (name_is (params_name req)) (groups st) with
          | None => mkQueryResponse 400 (QError "Group not found")
          | Some g =>
              mkQueryResponse 200
                (QGroup (group_view g) (refreshedTokenMessage res)
                        (refreshedTokenMessage res))
          end, st).
Proof.
  unfold getGroup, try_catch. cbv zeta.
  destruct (authorized (verifyMultipleAuth req res ["User"; "Admin"]));
    [|reflexivity].
  cbn. now destruct (find _ (groups st)).
Qed.

Lemma find_map {A B} (g : A -> B) (f : B -> bool) (l : list A) :
  find f (map g l) = option_map g (find (fun x => f (g x)) l).
Proof.
  induction l as [|x l IH]; simpl; [reflexivity|].
  now destruct (f (g x)).
Qed.

(** For an administrator getUsers lists one entry per stored user, and
    the user that getUser returns for any session of the same store is
    one of these entries. *)
Theorem getUser_answer_is_listed
        (req req' : Request) (res res' : Locals) (st : Store)
        (u e r : string) (rtm : value)
        (Hadmin : authorized (verifyAuth req res "Admin") = true)
        (Hown : fst (getUser req' res' st) = mkResponse 200 (JUser u e r rtm)) :
  exists data,
    fst (getUsers req res st)
    = mkQueryResponse 200 (QUsers data (refreshedTokenMessage res)) /\
    List.length data = List.length (users st) /\
    In (mkUserView u e r) data.
Proof.
  exists (map user_view (users st)).
  rewrite getUsers_eq, Hadmin. cbn [negb fst].
  split; [reflexivity|]. split; [apply length_map|].
  rewrite getUser_eq in Hown. cbv zeta in Hown. cbn [fst] in Hown.
  destruct (authorized (verifyMultipleAuth req' res' ["User"; "Admin"]));
    cbn [negb] in Hown;
    [|apply (f_equal status) in Hown; cbn in Hown; lia].
  destruct (find (refreshToken_is (cookies_refreshToken req')) (users st))
    as [user|] eqn:Hfind;
    [|apply (f_equal status) in Hown; cbn in Hown; lia].
  apply find_some in Hfind. destruct Hfind as [Hin _].
  injection Hown as <- <- <- _.
  now apply (in_map user_view) in Hin.
Qed.

(** The answer of getGroup is the first entry of the listing of
    getGroups whose name is the requested one, sent with status 200, and
    400 Group not found when the listing has no such entry. *)
Theorem getGroup_is_first_listed
        (req req' : Request) (res res' : Locals) (st : Store)
        (Hadmin : authorized (verifyAuth req res "Admin") = true)
        (Hauth : authorized (verifyMultipleAuth req' res' ["User"; "Admin"]) = true) :
  exists data,
    fst (getGroups req res st)
    = mkQueryResponse 200 (QGroups data (refreshedTokenMessage res)) /\
    fst (getGroup req' res' st)
    = match find (view_named (params_name req')) data with
      | Some v =>
          mkQueryResponse 200
            (QGroup v (refreshedTokenMessage res') (refreshedTokenMessage res'))
      | None => mkQueryResponse 400 (QError "Group not found")
      end.
Proof.
  exists (map group_view (groups st)).
  rewrite getGroups_eq, getGroup_eq, Hadmin. cbv zeta. rewrite Hauth.
  cbn [negb fst]. split; [reflexivity|].
  rewrite find_map.
  change (fun x => view_named (params_name req') (group_view x))
    with (name_is (params_name req')).
  now destruct (find (name_is (params_name req')) (groups st)).
Qed.

(** ** deleteGroup *)

Lemma filter_found (A : Type) (f : A -> bool) (l : list A) (x : A) :
  find f l = Some x -> filter f l <> [].
Proof.
  induction l as [|y l IH]; simpl; [discriminate|].
  destruct (f y); [discriminate|]. exact IH.
Qed.

Lemma deleted_count_zero (n : value) (gs : list Group) :
  Nat.eqb (List.length (filter (name_is n) gs)) 0 = negb (truthy (find (name_is n) gs)).
Proof.
  destruct (find (name_is n) gs) eqn:Hfind; cbn.
  - apply filter_found in Hfind. now destruct (filter (name_is n) gs).
  - now destruct (filter_none _ _ _ Hfind) as [_ ->].
Qed.

Lemma find_filter_negb (A : Type) (f : A -> bool) (l : list A) :
  find f (filter (fun x => negb (f x)) l) = None.
Proof.
  induction l as [|x l IH]; simpl; [reflexivity|].
  destruct (f x) eqn:Hx; simpl; [exact IH|]. now rewrite Hx.
Qed.

(** On a request whose name is undefined or a string, deleteGroup
    answers 200 exactly when the caller passes both the Admin and the
    Group check, the name is present and not the empty string, and a
    group of that name is stored. *)
Theorem deleteGroup_success_iff (req : Request) (res : Locals) (st : Store) :
  status (fst (deleteGroup req res st)) = 200
  <-> authorised OpDeleteGroup req res = true /\
      validated OpDeleteGroup req st = true.
Proof.
  rewrite deleteGroup_eq. cbn [authorised validated]. unfold group_exists.
  destruct (authorized (verifyAuth req res "Admin")); cbn [negb andb];
    [|cbn; split; [lia|intros [? _]; discriminate]].
  destruct (body_name req) as [|n];
    [cbn; split; [lia|intros [_ ?]; discriminate]|].
  destruct (String.eqb n "");
    [cbn; split; [lia|intros [_ ?]; discriminate]|].
  destruct (authorized (verifyAuth req res "Group")); cbn [negb andb];
    [|cbn; split; [lia|intros [? _]; discriminate]].
  cbn [fst]. rewrite deleted_count_zero.
  destruct (find (name_is (VString n)) (groups st)); cbn;
    split; auto; lia.
Qed.

(** A deleteGroup call whose name is the string [n] and which is
    answered 200 removes every group named [n] and nothing else: the
    groups of another name stay, in their order, and users and
    transactions are untouched. *)
Theorem deleteGroup_removes_named_groups
        (req : Request) (res : Locals) (st : Store) (n : string)
        (Hname : body_name req = VString n)
        (Hok : status (fst (deleteGroup req res st)) = 200) :
  let st' := snd (deleteGroup req res st) in
  groups st' = filter (fun g => negb (String.eqb n (g_name g))) (groups st) /\
  group_exists st' (VString n) = false /\
  users st' = users st /\
  transactions st' = transactions st.
Proof.
  cbv zeta. revert Hok. rewrite deleteGroup_eq, Hname.
  destruct (authorized (verifyAuth req res "Admin")); cbn [negb];
    [|cbn; lia].
  destruct (String.eqb n ""); [cbn; lia|].
  destruct (authorized (verifyAuth req res "Group")); cbn [negb];
    [|cbn; lia].
  intros _. cbn [snd groups users transactions]. unfold group_exists.
  repeat split. cbn [groups].
  now rewrite (find_filter_negb _ (name_is (VString n))).
Qed.

(** After a deleteGroup call answered 200, the same call repeated is
    answered 400 Group not found, and so is getGroup on that name by an
    authorized caller. *)
Theorem deleteGroup_then_not_found
        (req req' : Request) (res res' : Locals) (st : Store)
        (Hok : status (fst (deleteGroup req res st)) = 200)
        (Hsame : params_name req' = body_name req)
        (Hauth : authorized (verifyMultipleAuth req' res' ["User"; "Admin"]) = true) :
  let st' := snd (deleteGroup req res st) in
  fst (deleteGroup req res st') = mkResponse 400 (JMessage "Group not found") /\
  snd (deleteGroup req res st') = st' /\
  fst (getGroup req' res' st') = mkQueryResponse 400 (QError "Group not found").
Proof.
  cbv zeta. rewrite getGroup_eq, Hsame. cbv zeta. rewrite Hauth.
  revert Hok. rewrite !deleteGroup_eq.
  destruct (authorized (verifyAuth req res "Admin")); cbn [negb];
    [|cbn; lia].
  destruct (body_name req) as [|n]; [cbn; lia|].
  destruct (String.eqb n ""); [cbn; lia|].
  destruct (authorized (verifyAuth req res "Group")); cbn [negb];
    [|cbn; lia].
  intros _. cbn [snd fst groups users transactions].
  rewrite deleted_count_zero.
  rewrite !(find_filter_negb _ (name_is (VString n))). cbn.
  split; [reflexivity|]. split; [|reflexivity].
  f_equal.
  assert (H := find_filter_negb _ (name_is (VString n)) (groups st)).
  exact (proj1 (filter_none _ _ _ H)).
Qed.

(** ** The classifier, further *)

Lemma filter_empty_iff {A} (p : A -> bool) (l : list A) :
  filter p l = [] <-> forall x, In x l -> p x = false.
Proof.
  induction l as [|x l IH]; simpl.
  - split; [intros _ y []|reflexivity].
  - destruct (p x) eqn:Hx.
    + split; [discriminate|]. intros H. specialize (H x (or_introl eq_refl)).
      congruence.
    + rewrite IH. split.
      * intros H y [<-|Hy]; auto.
      * intros H y Hy. apply H. now right.
Qed.

Lemma filter_lengths {A} (p : A -> bool) (l : list A) :
  List.length (filter p l) + List.length (filter (fun x => negb (p x)) l)
  = List.length l.
Proof.
  induction l as [|x l IH]; simpl; [reflexivity|].
  destruct (p x); simpl; lia.
Qed.

Lemma valid_count_zero_iff st memberEmails groupName :
  valid_count st memberEmails groupName = 0
  <-> forall e, In e memberEmails -> not_valid st groupName e = true.
Proof.
  rewrite valid_count_eq, length_zero_iff_nil. unfold not_valid.
  destruct groupName as [|g]; cbn; rewrite filter_empty_iff; split; intros H e He.
  - destruct (registered st e) eqn:Hr; [|reflexivity]. cbn.
    apply negb_false_iff. apply H. now apply filter_In_intro.
  - apply filter_In in He. destruct He as [He Hr].
    specialize (H e He). rewrite Hr in H. cbn in H. now rewrite H.
  - destruct (registered st e) eqn:Hr; [|reflexivity]. cbn.
    apply negb_true_iff. apply H. now apply filter_In_intro.
  - apply filter_In in He. destruct He as [He Hr].
    specialize (H e He). rewrite Hr in H. cbn in H. now apply negb_true_iff.
Qed.

(** validEmails comes back empty exactly when every candidate is the
    email of no registered user or, without a target group, already a
    member of some group or, with a target group, no member of that
    group; in particular for an empty candidate list. *)
Theorem validEmails_empty_iff
        (st : Store) (memberEmails : list string) (groupName : value) :
  exists r,
    checkGroupEmails memberEmails groupName st = (Returned r, st) /\
    (validEmails r = []
     <-> forall e, In e memberEmails -> not_valid st groupName e = true).
Proof.
  exists (undefined_arrays (classification st memberEmails groupName)).
  split; [apply checkGroupEmails_eq|].
  rewrite <- valid_count_zero_iff, valid_count_eq.
  unfold undefined_arrays; cbn [validEmails].
  rewrite <- !length_zero_iff_nil. now rewrite length_map.
Qed.

(** The four returned arrays account for every candidate: their lengths
    add up to the length of the candidate list; notInGroup is empty when
    no target group is given and alreadyInGroup is empty when one is. *)
Theorem returned_arrays_account_for_candidates
        (st : Store) (memberEmails : list string) (groupName : value) :
  exists r,
    checkGroupEmails memberEmails groupName st = (Returned r, st) /\
    List.length (validEmails r) + List.length (alreadyInGroup r)
    + List.length (membersNotFound r) + List.length (notInGroup r)
    = List.length memberEmails /\
    (groupName = VUndefined -> notInGroup r = []) /\
    (groupName <> VUndefined -> alreadyInGroup r = []).
Proof.
  exists (undefined_arrays (classification st memberEmails groupName)).
  split; [apply checkGroupEmails_eq|].
  pose proof (filter_lengths (registered st) memberEmails) as Hreg.
  destruct groupName as [|g]; cbn; rewrite !length_map.
  - pose proof (filter_lengths (in_some_group st)
                               (filter (registered st) memberEmails)) as Hgrp.
    repeat split; [lia|congruence].
  - pose proof (filter_lengths (in_group_named st (VString g))
                               (filter (registered st) memberEmails)) as Hgrp.
    repeat split; [lia|discriminate].
Qed.

(** Each candidate is judged on its own: the number of valid emails of
    a concatenation of two candidate lists is the sum of the numbers for
    the two lists. *)
Theorem valid_count_app
        (st : Store) (l1 l2 : list string) (groupName : value) :
  valid_count st (l1 ++ l2) groupName
  = valid_count st l1 groupName + valid_count st l2 groupName.
Proof.
  rewrite !valid_count_eq.
  destruct groupName as [|g]; cbn; now rewrite !filter_app, length_app.
Qed.

(** ** The group handlers, further *)

Lemma valid_count_eqb_iff st ms g :
  Nat.eqb (valid_count st ms g) 0 = true
  <-> forall e, In e ms -> not_valid st g e = true.
Proof. now rewrite Nat.eqb_eq, valid_count_zero_iff. Qed.

(** Past authorization and the other validations, each group handler
    answers All the emails are invalid exactly when no candidate is
    valid: for createGroup and addToGroup when every candidate is
    unregistered or already in some group, for removeFromGroup when
    every candidate is unregistered or no member of the named group.
    An empty candidate list is such a case. *)
Theorem all_emails_invalid_iff
        (req : Request) (res : Locals) (st : Store) (ms : list string)
        (Hemails : body_memberEmails req = Some ms) :
  (forall n,
      body_name req = VString n ->
      authorised OpCreateGroup req res = true ->
      group_exists st (VString n) = false ->
      (fst (createGroup req res st)
       = mkResponse 401 (JError "All the emails are invalid")
       <-> forall e, In e ms -> not_valid st VUndefined e = true)) /\
  (forall n,
      params_name req = VString n ->
      authorised OpAddToGroup req res = true ->
      route_is req "add" || route_is req "insert" = true ->
      group_exists st (VString n) = true ->
      forallb isEmail ms = true ->
      (fst (addToGroup req res st)
       = mkResponse 400 (JError "All the emails are invalid")
       <-> forall e, In e ms -> not_valid st VUndefined e = true)) /\
  (authorised OpRemoveFromGroup req res = true ->
   route_is req "remove" || route_is req "pull" = true ->
   group_exists st (params_name req) = true ->
   (fst (removeFromGroup req res st)
    = mkResponse 401 (JError "All the emails are invalid")
    <-> forall e, In e ms -> not_valid st (params_name req) e = true)).
Proof.
  split; [|split].
  - intros n Hname Hauth Hfresh. cbn [authorised] in Hauth.
    rewrite createGroup_eq, Hname, Hemails, Hauth, Hfresh. cbn [negb fst].
    rewrite <- valid_count_eqb_iff.
    destruct (Nat.eqb (valid_count st ms VUndefined) 0);
      split; auto; discriminate.
  - intros n Hname Hauth Hroute Hgroup Hvalid.
    cbn [authorised] in Hauth. unfold route_authorised in Hauth.
    rewrite addToGroup_eq, Hname, Hemails. cbv zeta.
    rewrite Hgroup, existsb_negb_forallb, Hvalid. cbn [negb].
    rewrite <- valid_count_eqb_iff.
    destruct (route_is req "add"), (route_is req "insert");
      cbn in Hauth, Hroute; try discriminate; split_bools; rewrite_bools;
      destruct (Nat.eqb (valid_count st ms VUndefined) 0);
      split; auto; discriminate.
  - intros Hauth Hroute Hgroup.
    cbn [authorised] in Hauth. unfold route_authorised in Hauth.
    rewrite removeFromGroup_eq, Hemails. cbv zeta.
    rewrite Hgroup. cbn [negb].
    rewrite <- valid_count_eqb_iff.
    destruct (route_is req "remove"), (route_is req "pull");
      cbn in Hauth, Hroute; try discriminate; rewrite_bools;
      destruct (Nat.eqb (valid_count st ms (params_name req)) 0);
      split; auto; discriminate.
Qed.

(** Once authorized on the add or insert route, addToGroup looks for
    the group before it looks at the emails: a missing group is answered
    400 Group not found whatever the candidates, and a candidate that
    fails the syntactic check is answered 400 Mail not valid whatever
    its classification would be. *)
Theorem addToGroup_validation_order
        (req : Request) (res : Locals) (st : Store) (n : string) (ms : list string)
        (Hname : params_name req = VString n)
        (Hemails : body_memberEmails req = Some ms)
        (Hauth : authorised OpAddToGroup req res = true)
        (Hroute : route_is req "add" || route_is req "insert" = true) :
  (group_exists st (VString n) = false ->
   addToGroup req res st = (mkResponse 400 (JError "Group not found"), st)) /\
  (group_exists st (VString n) = true ->
   forallb isEmail ms = false ->
   addToGroup req res st = (mkResponse 400 (JError "Mail not valid"), st)).
Proof.
  cbn [authorised] in Hauth. unfold route_authorised in Hauth.
  rewrite addToGroup_eq, Hname, Hemails. cbv zeta.
  rewrite existsb_negb_forallb.
  split; [intros Hgroup | intros Hgroup Hbad];
    destruct (route_is req "add"), (route_is req "insert");
    cbn in Hauth, Hroute; try discriminate; split_bools; now rewrite_bools.
Qed.

(** createGroup answers Missing parameters exactly when name or
    memberEmails is undefined, and addToGroup gives its answer for
    missing attributes exactly then: an empty name and an empty list of
    emails count as present. *)
Theorem missing_parameters_iff (req : Request) (res : Locals) (st : Store) :
  (fst (createGroup req res st) = mkResponse 401 (JMessage "Missing parameters")
   <-> body_name req = VUndefined \/ body_memberEmails req = None) /\
  (fst (addToGroup req res st)
   = mkResponse 400
       (JError "The request body does not contain all the necessary attributes")
   <-> params_name req = VUndefined \/ body_memberEmails req = None).
Proof.
  split.
  - rewrite createGroup_eq.
    destruct (body_name req) as [|n], (body_memberEmails req) as [ms|];
      cbn [fst]; try (split; auto; fail).
    split; [|intros [|]; discriminate].
    repeat match goal with
           | |- context [if ?b then _ else _] => destruct b
           end; discriminate.
  - rewrite addToGroup_eq.
    destruct (params_name req) as [|n], (body_memberEmails req) as [ms|];
      cbn [fst]; try (split; auto; fail).
    split; [|intros [|]; discriminate]. cbv zeta.
    destruct (authorized (verifyMultipleAuth req res ["User"; "Admin"])); cbn;
      repeat match goal with
             | |- context [if ?b then _ else _] => destruct b; cbn
             end; intros Heq;
      first [ discriminate Heq
            | apply (f_equal status) in Heq; cbn in Heq; lia ].
Qed.

(** The answers of deleteUser: 401 exactly when the Admin check fails,
    400 exactly when it passes and the email is missing, malformed or of
    no user, 500 exactly when it passes and the email is that of a user.
    Users and groups are never changed; the store is changed only in the
    last case, where the transactions whose email is the given one are
    deleted before the handler fails. *)
Theorem deleteUser_outcomes (req : Request) (res : Locals) (st : Store) :
  let r := deleteUser req res st in
  (status (fst r) = 401 <-> authorised OpDeleteUser req res = false) /\
  (status (fst r) = 400
   <-> authorised OpDeleteUser req res = true /\
       validated OpDeleteUser req st = false) /\
  (status (fst r) = 500
   <-> authorised OpDeleteUser req res = true /\
       validated OpDeleteUser req st = true) /\
  users (snd r) = users st /\
  groups (snd r) = groups st /\
  (status (fst r) <> 500 -> snd r = st) /\
  (forall e, body_email req = VString e -> status (fst r) = 500 ->
             transactions (snd r)
             = filter (fun t => negb (tr_email_is e t)) (transactions st)).
Proof.
  cbv zeta. rewrite deleteUser_eq. cbn [authorised validated].
  destruct (authorized (verifyAuth req res "Admin")); cbn [negb];
    [destruct (body_email req) as [|e];
     [|destruct (isEmail e); cbn [negb andb];
       [destruct (registered st e)|]]|];
    cbn; repeat split; intros;
    repeat match goal with H : _ /\ _ |- _ => destruct H end;
    try lia; try congruence.
  injection H as ->. reflexivity.
Qed.

(** ** Route intent *)

Lemma slice_last_snoc {A} (l : list A) (x : A) : slice_last (l ++ [x]) = [x].
Proof. unfold slice_last. now rewrite rev_app_distr. Qed.

Lemma split_slash_free s : slash_free s = true -> split "/" s = [s].
Proof.
  induction s as [|c s IH]; simpl; [reflexivity|].
  intros H. apply andb_true_iff in H. destruct H as [Hc Hs].
  apply negb_true_iff in Hc. rewrite Hc, (IH Hs). reflexivity.
Qed.

Lemma split_not_nil sep s : split sep s <> [].
Proof.
  destruct s as [|c s]; simpl; [discriminate|].
  destruct (Ascii.eqb c sep); [discriminate|].
  destruct (split sep s); discriminate.
Qed.

Lemma split_append_slash q s :
  split "/" (q ++ "/" ++ s) = (split "/" q ++ split "/" s)%list.
Proof.
  induction q as [|c q IH]; simpl; [reflexivity|].
  destruct (Ascii.eqb c "/"); simpl in IH; rewrite IH; [reflexivity|].
  pose proof (split_not_nil "/" q) as Hq.
  destruct (split "/" q); [congruence|reflexivity].
Qed.

Lemma split_last_segment p :
  exists segs s,
    split "/" p = (segs ++ [s])%list /\ slash_free s = true /\
    ((segs = [] /\ p = s) \/ (segs <> [] /\ exists q, p = q ++ "/" ++ s)).
Proof.
  induction p as [|c p IH].
  - exists [], "". simpl. auto.
  - destruct IH as (segs & s & Hsplit & Hfree & Hcase). simpl.
    destruct (Ascii.eqb c "/") eqn:Hc.
    + apply Ascii.eqb_eq in Hc. subst c.
      exists ("" :: segs), s. rewrite Hsplit. split; [reflexivity|].
      split; [exact Hfree|]. right. split; [discriminate|].
      destruct Hcase as [[_ ->]|[_ [q ->]]].
      * now exists "".
      * now exists (String "/" q).
    + rewrite Hsplit. destruct Hcase as [[-> ->]|[Hne [q ->]]].
      * exists [], (String c s). simpl. rewrite Hc, Hfree. auto.
      * destruct segs as [|h t]; [congruence|].
        exists (String c h :: t), s. simpl. split; [reflexivity|].
        split; [exact Hfree|]. right. split; [discriminate|].
        now exists (String c q).
Qed.

(** The route intent is the text after the last slash of the path: it is
    always a string without a slash, and it is a given slash-free
    segment exactly when the path is that segment or ends with a slash
    followed by it. *)
Theorem route_intent_is_text_after_last_slash (req : Request) :
  (exists s, last_segment (path req) = VString s /\ slash_free s = true) /\
  (forall segment,
      slash_free segment = true ->
      (route_is req segment = true
       <-> path req = segment \/ exists q, path req = q ++ "/" ++ segment)).
Proof.
  destruct (split_last_segment (path req)) as (segs & s & Hsplit & Hfree & Hcase).
  assert (Hlast : last_segment (path req) = VString s).
  { unfold last_segment. now rewrite Hsplit, slice_last_snoc. }
  split; [now exists s|].
  intros segment Hseg. unfold route_is. split.
  - rewrite Hlast. cbn. intros Heq. apply String.eqb_eq in Heq. subst s.
    destruct Hcase as [[_ ?]|[_ ?]]; auto.
  - intros [Hp|[q Hp]]; rewrite Hp; unfold last_segment.
    + rewrite (split_slash_free _ Hseg). cbn. apply String.eqb_refl.
    + rewrite split_append_slash, (split_slash_free _ Hseg), slice_last_snoc.
      cbn. apply String.eqb_refl.
Qed.

(** ** Disclosure *)

(** A body that carries users or groups is sent only to a caller who
    passed the authorization check of the handler: Admin for getUsers
    and getGroups, User-or-Admin for getUser and getGroup.  None of the
    four handlers modifies the store. *)
Theorem data_only_for_authorized_callers
        (req : Request) (res : Locals) (st : Store) :
  (snd (getUsers req res st) = st /\ snd (getUser req res st) = st /\
   snd (getGroups req res st) = st /\ snd (getGroup req res st) = st) /\
  (forall data rtm,
      q_body (fst (getUsers req res st)) = QUsers data rtm ->
      authorized (verifyAuth req res "Admin") = true) /\
  (forall data rtm,
      q_body (fst (getGroups req res st)) = QGroups data rtm ->
      authorized (verifyAuth req res "Admin") = true) /\
  (forall v rtm1 rtm2,
      q_body (fst (getGroup req res st)) = QGroup v rtm1 rtm2 ->
      authorized (verifyMultipleAuth req res ["User"; "Admin"]) = true) /\
  (forall u e r rtm,
      body (fst (getUser req res st)) = JUser u e r rtm ->
      authorized (verifyMultipleAuth req res ["User"; "Admin"]) = true).
Proof.
  rewrite getUsers_eq, getGroups_eq, getGroup_eq, getUser_eq. cbv zeta.
  destruct (authorized (verifyAuth req res "Admin")),
           (authorized (verifyMultipleAuth req res ["User"; "Admin"]));
    cbn; repeat split; intros; try reflexivity; discriminate.
Qed.

End Controller.

(** ** The theorems at concrete requests *)

Lemma classification_rules_witness :
  In "zz@x.com" ["b@x.com"; "zz@x.com"; "a@x.com"] /\
  exists c,
    classifyEmails ["b@x.com"; "zz@x.com"; "a@x.com"] VUndefined store0
    = (Returned c, store0) /\
    placed_in "zz@x.com" (c_membersNotFound c)
              (c_memberEmails c) (c_alreadyInGroup c) (c_notInGroup c).
Proof.
  assert (Hin : In "zz@x.com" ["b@x.com"; "zz@x.com"; "a@x.com"])
    by (simpl; auto).
  split; [exact Hin|].
  destruct (classification_rules
              store0 ["b@x.com"; "zz@x.com"; "a@x.com"] VUndefined "zz@x.com" Hin)
    as (c & Hc & Hnotfound & _).
  exists c. split; [exact Hc|]. apply Hnotfound. reflexivity.
Defined.

Lemma C3_undefined_entries_break_group_operations_witness :
  (authorised allow allowMultiple OpCreateGroup create_friends locals0 = true /\
   validated has_at OpCreateGroup create_friends store0 = true /\
   createGroup allow create_friends locals0 store0 = (internal_error, store0)) /\
  (authorised allow allowMultiple OpAddToGroup add_bob locals0 = true /\
   validated has_at OpAddToGroup add_bob store0 = true /\
   addToGroup allow allowMultiple has_at add_bob locals0 store0
   = (internal_error, store0)) /\
  (authorised allow allowMultiple OpRemoveFromGroup remove_alice locals0 = true /\
   validated has_at OpRemoveFromGroup remove_alice store0 = true /\
   removeFromGroup allow remove_alice locals0 store0 = (internal_error, store0)).
Proof.
  split; [|split]; (split; [reflexivity|split; [reflexivity|]]).
  - exact (proj1 (proj2 (C3_undefined_entries_break_group_operations
                           allow allowMultiple has_at OpCreateGroup
                           create_friends locals0 store0
                           eq_refl eq_refl eq_refl))).
  - exact (proj1 (proj2 (C3_undefined_entries_break_group_operations
                           allow allowMultiple has_at OpAddToGroup
                           add_bob locals0 store0
                           eq_refl eq_refl eq_refl))).
  - exact (proj1 (proj2 (C3_undefined_entries_break_group_operations
                           allow allowMultiple has_at OpRemoveFromGroup
                           remove_alice locals0 store0
                           eq_refl eq_refl eq_refl))).
Defined.

Lemma C6_authorization_and_validation_precede_mutation_witness :
  authorised deny denyMultiple OpDeleteUser delete_alice locals0 = false /\
  reaches_authorization deny OpDeleteUser delete_alice locals0 = true /\
  handle deny denyMultiple has_at OpDeleteUser delete_alice locals0 store0
  = (mkResponse 401 (JMessage "Unauthorized: user is not an admin!"), store0) /\
  validated has_at OpDeleteGroup add_without_name store0 = false /\
  snd (handle allow allowMultiple has_at OpDeleteGroup add_without_name locals0 store0)
  = store0.
Proof.
  split; [reflexivity|]. split; [reflexivity|]. split.
  - exact (proj1 (C6_authorization_and_validation_precede_mutation
                    deny denyMultiple has_at OpDeleteUser delete_alice locals0 store0)
                 eq_refl eq_refl).
  - split; [reflexivity|].
    exact (proj2 (C6_authorization_and_validation_precede_mutation
                    allow allowMultiple has_at OpDeleteGroup add_without_name
                    locals0 store0)
                 (or_intror eq_refl)).
Defined.

Lemma C7_removeFromGroup_wrong_route_witness :
  route_is leave_family "remove" = false /\
  route_is leave_family "pull" = false /\
  removeFromGroup deny leave_family locals0 store0
  = (mkResponse 400 (JError "Path not correct"), store0).
Proof.
  split; [reflexivity|]. split; [reflexivity|].
  exact (C7_removeFromGroup_wrong_route deny leave_family locals0 store0
                                        eq_refl eq_refl).
Defined.

Lemma C8_removeFromGroup_keeps_group_record_witness :
  find (name_is (VString "Family")) (groups store0) = Some family /\
  (forall m, In m (members family) ->
             existsb (fun c => member_matches c m)
                     [mkMember (VString "a@x.com") (Some alice)] = true) /\
  In (mkGroup "Family" [])
     (groups (snd (Group_updateOne (name_is (VString "Family"))
                     (pull_members [mkMember (VString "a@x.com") (Some alice)])
                     store0))).
Proof.
  assert (Hall : forall m, In m (members family) ->
                           existsb (fun c => member_matches c m)
                                   [mkMember (VString "a@x.com") (Some alice)] = true).
  { intros m [<-|[]]. reflexivity. }
  split; [reflexivity|]. split; [exact Hall|].
  exact (proj2 (proj2 (proj2 (proj2 (C8_removeFromGroup_keeps_group_record
                                       allow remove_alice locals0 store0))
                             [mkMember (VString "a@x.com") (Some alice)]))
               family eq_refl Hall).
Defined.

Lemma C9_getUser_ignores_username_witness :
  allowMultiple (with_username (VString "alice") create_friends) locals0 ["User"; "Admin"]
  = allowMultiple (with_username (VString "bob") create_friends) locals0 ["User"; "Admin"] /\
  getUser allowMultiple (with_username (VString "alice") create_friends) locals0 store0
  = getUser allowMultiple (with_username (VString "bob") create_friends) locals0 store0 /\
  getUser allowMultiple (with_username (VString "bob") create_friends) locals0 store0
  = (mkResponse 200 (JUser "alice" "a@x.com" "Regular" VUndefined), store0).
Proof.
  split; [reflexivity|].
  destruct (C9_getUser_ignores_username
              allowMultiple create_friends (VString "alice") (VString "bob")
              locals0 store0 eq_refl) as [Hsame Hcookie].
  split; [exact Hsame|]. rewrite <- Hsame. exact (Hcookie eq_refl).
Defined.

Lemma C10_addToGroup_multi_capability_first_witness :
  params_name join_family = VString "Family" /\
  body_memberEmails join_family = Some ["b@x.com"] /\
  authorized (denyMultiple join_family locals0 ["User"; "Admin"]) = false /\
  addToGroup allow denyMultiple has_at join_family locals0 store0
  = (mkResponse 401 (JError "Unauthorized"), store0) /\
  addToGroup allow allowMultiple has_at join_family locals0 store0
  = (mkResponse 400 (JError "Path not correct"), store0).
Proof.
  split; [reflexivity|]. split; [reflexivity|]. split; [reflexivity|]. split.
  - exact (proj1 (C10_addToGroup_multi_capability_first
                    allow denyMultiple has_at join_family locals0 store0
                    "Family" ["b@x.com"] eq_refl eq_refl)
                 eq_refl).
  - reflexivity.
Defined.

(** ** Where the specification and the controller part *)

(** C1, as the specification states it, fails on a repeated candidate:
    both occurrences are kept, in the list built by the classifier and in
    the returned array, whose entries are not the input emails. *)
Lemma C1_counterexample :
  exists c r,
    classifyEmails ["b@x.com"; "b@x.com"] VUndefined store0 = (Returned c, store0) /\
    checkGroupEmails ["b@x.com"; "b@x.com"] VUndefined store0 = (Returned r, store0) /\
    c_memberEmails c = ["b@x.com"; "b@x.com"] /\
    validEmails r = [VUndefined; VUndefined] /\
    distinct_normalized ["b@x.com"; "b@x.com"] = ["b@x.com"] /\
    ~ spec_partition ["b@x.com"; "b@x.com"] r.
Proof.
  eexists. eexists.
  split; [reflexivity|]. split; [reflexivity|]. split; [reflexivity|].
  split; [reflexivity|]. split; [reflexivity|].
  intros (_ & Hnodup & _). cbn in Hnodup.
  inversion Hnodup as [|x l Hnotin _]. apply Hnotin. now left.
Qed.

(** C6, as stated, fails on addToGroup: a caller who fails every
    authorization check and sends no memberEmails is answered 400, not
    401. *)
Lemma C6_counterexample :
  authorised deny denyMultiple OpAddToGroup add_without_emails locals0 = false /\
  handle deny denyMultiple has_at OpAddToGroup add_without_emails locals0 store0
  = (mkResponse 400
       (JError "The request body does not contain all the necessary attributes"),
     store0) /\
  status (fst (handle deny denyMultiple has_at OpAddToGroup add_without_emails
                      locals0 store0)) <> 401.
Proof.
  split; [reflexivity|]. split; [reflexivity|].
  cbn. intros H. apply Nat.eqb_eq in H. discriminate H.
Qed.

(** C7, as stated, fails when the body has no memberEmails: the answer
    on a wrong route is then 401 Missing parameters. *)
Lemma C7_counterexample :
  route_is leave_without_emails "remove" = false /\
  route_is leave_without_emails "pull" = false /\
  removeFromGroup allow leave_without_emails locals0 store0
  = (mkResponse 401 (JError "Missing parameters"), store0) /\
  status (fst (removeFromGroup allow leave_without_emails locals0 store0)) <> 400.
Proof.
  split; [reflexivity|]. split; [reflexivity|]. split; [reflexivity|].
  cbn. intros H. apply Nat.eqb_eq in H. discriminate H.
Qed.

(** C10, as stated, fails when the name parameter is missing: a caller
    who does not pass the User-or-Admin check is answered 400. *)
Lemma C10_counterexample :
  authorized (denyMultiple add_without_name locals0 ["User"; "Admin"]) = false /\
  addToGroup deny denyMultiple has_at add_without_name locals0 store0
  = (mkResponse 400
       (JError "The request body does not contain all the necessary attributes"),
     store0) /\
  status (fst (addToGroup deny denyMultiple has_at add_without_name locals0 store0))
  <> 401.
Proof.
  split; [reflexivity|]. split; [reflexivity|].
  cbn. intros H. apply Nat.eqb_eq in H. discriminate H.
Qed.

(** C2: classifying zz@x.com (no user), a@x.com (Alice, a member of
    Family) and b@x.com (Bob, in no group).  The lists built by lines
    439-460 hold each email where the claim places it, but the maps of
    the return statement discard them: no candidate is in any of the
    four returned arrays, whose entries are all undefined, with or
    without a target group. *)
Theorem C2_checkGroupEmails_failing_input :
  (registered store0 "zz@x.com" = false /\
   registered store0 "a@x.com" = true /\ in_some_group store0 "a@x.com" = true /\
   registered store0 "b@x.com" = true /\ in_some_group store0 "b@x.com" = false) /\
  classifyEmails ["zz@x.com"; "a@x.com"; "b@x.com"] VUndefined store0
  = (Returned (mkClassification ["b@x.com"] ["a@x.com"] ["zz@x.com"] []), store0) /\
  checkGroupEmails ["zz@x.com"; "a@x.com"; "b@x.com"] VUndefined store0
  = (Returned (mkCheckResult [VUndefined] [VUndefined] [VUndefined] []), store0) /\
  (in_group_named store0 (VString "Family") "a@x.com" = true /\
   in_group_named store0 (VString "Family") "b@x.com" = false) /\
  classifyEmails ["zz@x.com"; "a@x.com"; "b@x.com"] (VString "Family") store0
  = (Returned (mkClassification ["a@x.com"] [] ["zz@x.com"] ["b@x.com"]), store0) /\
  checkGroupEmails ["zz@x.com"; "a@x.com"; "b@x.com"] (VString "Family") store0
  = (Returned (mkCheckResult [VUndefined] [] [VUndefined] [VUndefined]), store0) /\
  (forall groupName,
    exists r,
      checkGroupEmails ["zz@x.com"; "a@x.com"; "b@x.com"] groupName store0
      = (Returned r, store0) /\
      ~ In (VString "zz@x.com") (membersNotFound r) /\
      ~ In (VString "a@x.com") (alreadyInGroup r) /\
      ~ In (VString "b@x.com") (validEmails r) /\
      ~ In (VString "a@x.com") (validEmails r) /\
      ~ In (VString "b@x.com") (notInGroup r)).
Proof.
  split; [repeat split|].
  split; [reflexivity|]. split; [reflexivity|].
  split; [repeat split|].
  split; [reflexivity|]. split; [reflexivity|].
  intros groupName. eexists. split; [apply checkGroupEmails_eq|].
  unfold undefined_arrays;
    cbn [validEmails alreadyInGroup membersNotFound notInGroup].
  repeat split; intros Hin; apply in_map_iff in Hin;
    destruct Hin as (e & Heq & _); discriminate Heq.
Qed.

(** C4: deleting Alice, who has two stored transactions and is a member
    of group Family, as an administrator: the handler answers 500 and
    the store is as before (Alice is still a user and still a member of
    Family, her transactions are still stored), where the claim has it
    answer with [deletedTransactionsNumber = 2] and
    [isRemovedFromGroup = true] after deleting all three. *)
Theorem C4_deleteUser_failing_input :
  validated has_at OpDeleteUser delete_alice store0 = true /\
  List.length (filter (tr_username_is "alice") (transactions store0)) = 2 /\
  in_some_group store0 "a@x.com" = true /\
  deleteUser allow has_at delete_alice locals0 store0
  = (mkResponse 500 (JString "userGroup.forEach is not a function"), store0).
Proof. repeat split. Qed.

(** C5: createGroup on the name of an existing group answers 401, not
    400; and createGroup never runs the syntactic email check: a
    candidate that is no email is classified like any other, here as the
    email of no user, and the answer is again 401. *)
Theorem C5_createGroup_failing_inputs :
  group_exists store0 (VString "Family") = true /\
  createGroup allow create_family locals0 store0
  = (mkResponse 401 (JError "A group with the same name already exists"), store0) /\
  has_at "not-an-email" = false /\
  createGroup allow create_with_bad_email locals0 store0
  = (mkResponse 401 (JError "All the emails are invalid"), store0).
Proof. repeat split. Qed.

(** ** The route and the capability asked for *)

(** The answers of addToGroup and removeFromGroup depend on verifyAuth
    only through the capability that the route selects: Group on add
    and remove, Admin on insert and pull, none on any other route.  An
    administrator without the Group capability can therefore use the
    insert and pull routes. *)
Theorem route_selects_the_capability
        (verifyAuth1 verifyAuth2 : Request -> Locals -> string -> AuthResult)
        (verifyMultipleAuth : Request -> Locals -> list string -> AuthResult)
        (isEmail : string -> bool)
        (req : Request) (res : Locals) (st : Store) :
  ((forall c, required_capability req "add" "insert" = Some c ->
              verifyAuth1 req res c = verifyAuth2 req res c) ->
   addToGroup verifyAuth1 verifyMultipleAuth isEmail req res st
   = addToGroup verifyAuth2 verifyMultipleAuth isEmail req res st) /\
  ((forall c, required_capability req "remove" "pull" = Some c ->
              verifyAuth1 req res c = verifyAuth2 req res c) ->
   removeFromGroup verifyAuth1 req res st = removeFromGroup verifyAuth2 req res st).
Proof.
  unfold required_capability. split; intros H.
  - rewrite !addToGroup_eq.
    destruct (params_name req), (body_memberEmails req); try reflexivity.
    cbv zeta.
    destruct (route_is req "add"); [now rewrite (H "Group" eq_refl)|].
    destruct (route_is req "insert"); [now rewrite (H "Admin" eq_refl)|].
    reflexivity.
  - rewrite !removeFromGroup_eq.
    destruct (body_memberEmails req); try reflexivity.
    cbv zeta.
    destruct (route_is req "remove"); [now rewrite (H "Group" eq_refl)|].
    destruct (route_is req "pull"); [now rewrite (H "Admin" eq_refl)|].
    reflexivity.
Qed.

Lemma route_selects_the_capability_witness :
  (forall c, required_capability insert_bob "add" "insert" = Some c ->
             allow insert_bob locals0 c = admin_only insert_bob locals0 c) /\
  addToGroup allow allowMultiple has_at insert_bob locals0 store0
  = addToGroup admin_only allowMultiple has_at insert_bob locals0 store0.
Proof.
  assert (H : forall c, required_capability insert_bob "add" "insert" = Some c ->
                        allow insert_bob locals0 c = admin_only insert_bob locals0 c).
  { intros c [= <-]. reflexivity. }
  split; [exact H|].
  exact (proj1 (route_selects_the_capability
                  allow admin_only allowMultiple has_at insert_bob locals0 store0) H).
Defined.

(** ** The further properties at concrete requests *)

Lemma getUser_answer_is_listed_witness :
  authorized (allow get_family locals0 "Admin") = true /\
  fst (getUser allowMultiple get_family locals0 store0)
  = mkResponse 200 (JUser "alice" "a@x.com" "Regular" VUndefined) /\
  exists data,
    fst (getUsers allow get_family locals0 store0)
    = mkQueryResponse 200 (QUsers data VUndefined) /\
    In (mkUserView "alice" "a@x.com" "Regular") data.
Proof.
  split; [reflexivity|]. split; [reflexivity|].
  destruct (getUser_answer_is_listed
              allow allowMultiple get_family get_family locals0 locals0 store0
              "alice" "a@x.com" "Regular" VUndefined eq_refl eq_refl)
    as (data & Hdata & _ & Hin).
  exists data. split; [exact Hdata | exact Hin].
Defined.

Lemma getGroup_is_first_listed_witness :
  authorized (allow get_family locals0 "Admin") = true /\
  authorized (allowMultiple get_family locals0 ["User"; "Admin"]) = true /\
  exists data,
    fst (getGroups allow get_family locals0 store0)
    = mkQueryResponse 200 (QGroups data VUndefined) /\
    fst (getGroup allowMultiple get_family locals0 store0)
    = match find (view_named (VString "Family")) data with
      | Some v => mkQueryResponse 200 (QGroup v VUndefined VUndefined)
      | None => mkQueryResponse 400 (QError "Group not found")
      end.
Proof.
  split; [reflexivity|]. split; [reflexivity|].
  exact (getGroup_is_first_listed
           allow allowMultiple get_family get_family locals0 locals0 store0
           eq_refl eq_refl).
Defined.

Lemma deleteGroup_success_iff_witness :
  authorised allow allowMultiple OpDeleteGroup delete_family locals0 = true /\
  validated has_at OpDeleteGroup delete_family store0 = true /\
  status (fst (deleteGroup allow delete_family locals0 store0)) = 200.
Proof.
  split; [reflexivity|]. split; [reflexivity|].
  exact (proj2 (deleteGroup_success_iff
                  allow allowMultiple has_at delete_family locals0 store0)
               (conj eq_refl eq_refl)).
Defined.

Lemma deleteGroup_removes_named_groups_witness :
  body_name delete_family = VString "Family" /\
  status (fst (deleteGroup allow delete_family locals0 store0)) = 200 /\
  groups (snd (deleteGroup allow delete_family locals0 store0)) = [] /\
  users (snd (deleteGroup allow delete_family locals0 store0)) = [alice; bob].
Proof.
  split; [reflexivity|]. split; [reflexivity|].
  destruct (deleteGroup_removes_named_groups
              allow delete_family locals0 store0 "Family" eq_refl eq_refl)
    as (Hgroups & _ & Husers & _).
  split; [exact Hgroups | exact Husers].
Defined.

Lemma deleteGroup_then_not_found_witness :
  status (fst (deleteGroup allow delete_family locals0 store0)) = 200 /\
  params_name get_family = body_name delete_family /\
  authorized (allowMultiple get_family locals0 ["User"; "Admin"]) = true /\
  fst (deleteGroup allow delete_family locals0
         (snd (deleteGroup allow delete_family locals0 store0)))
  = mkResponse 400 (JMessage "Group not found") /\
  fst (getGroup allowMultiple get_family locals0
         (snd (deleteGroup allow delete_family locals0 store0)))
  = mkQueryResponse 400 (QError "Group not found").
Proof.
  split; [reflexivity|]. split; [reflexivity|]. split; [reflexivity|].
  destruct (deleteGroup_then_not_found
              allow allowMultiple delete_family get_family locals0 locals0 store0
              eq_refl eq_refl eq_refl)
    as (Hagain & _ & Hget).
  split; [exact Hagain | exact Hget].
Defined.

Lemma validEmails_empty_iff_witness :
  (forall e, In e ["a@x.com"; "zz@x.com"] -> not_valid store0 VUndefined e = true) /\
  exists r,
    checkGroupEmails ["a@x.com"; "zz@x.com"] VUndefined store0 = (Returned r, store0) /\
    validEmails r = [].
Proof.
  assert (H : forall e, In e ["a@x.com"; "zz@x.com"] ->
                        not_valid store0 VUndefined e = true).
  { intros e [<-|[<-|[]]]; reflexivity. }
  split; [exact H|].
  destruct (validEmails_empty_iff store0 ["a@x.com"; "zz@x.com"] VUndefined)
    as (r & Hr & Hiff).
  exists r. split; [exact Hr|]. exact (proj2 Hiff H).
Defined.

Lemma returned_arrays_account_for_candidates_witness :
  exists r,
    checkGroupEmails ["a@x.com"; "b@x.com"; "zz@x.com"] VUndefined store0
    = (Returned r, store0) /\
    List.length (validEmails r) + List.length (alreadyInGroup r)
    + List.length (membersNotFound r) + List.length (notInGroup r) = 3 /\
    notInGroup r = [].
Proof.
  destruct (returned_arrays_account_for_candidates
              store0 ["a@x.com"; "b@x.com"; "zz@x.com"] VUndefined)
    as (r & Hr & Hlen & Hnone & _).
  exists r. split; [exact Hr|]. split; [exact Hlen|]. exact (Hnone eq_refl).
Defined.

Lemma all_emails_invalid_iff_witness :
  body_memberEmails create_with_alice = Some ["a@x.com"] /\
  body_name create_with_alice = VString "Friends" /\
  authorised allow allowMultiple OpCreateGroup create_with_alice locals0 = true /\
  group_exists store0 (VString "Friends") = false /\
  (forall e, In e ["a@x.com"] -> not_valid store0 VUndefined e = true) /\
  fst (createGroup allow create_with_alice locals0 store0)
  = mkResponse 401 (JError "All the emails are invalid").
Proof.
  assert (H : forall e, In e ["a@x.com"] -> not_valid store0 VUndefined e = true).
  { intros e [<-|[]]; reflexivity. }
  split; [reflexivity|]. split; [reflexivity|]. split; [reflexivity|].
  split; [reflexivity|]. split; [exact H|].
  exact (proj2 (proj1 (all_emails_invalid_iff
                         allow allowMultiple has_at create_with_alice locals0 store0
                         ["a@x.com"] eq_refl)
                      "Friends" eq_refl eq_refl eq_refl) H).
Defined.

Lemma addToGroup_validation_order_witness :
  params_name add_to_missing_group = VString "Nobody" /\
  body_memberEmails add_to_missing_group = Some ["b@x.com"] /\
  authorised allow allowMultiple OpAddToGroup add_to_missing_group locals0 = true /\
  route_is add_to_missing_group "add" || route_is add_to_missing_group "insert" = true /\
  group_exists store0 (VString "Nobody") = false /\
  addToGroup allow allowMultiple has_at add_to_missing_group locals0 store0
  = (mkResponse 400 (JError "Group not found"), store0).
Proof.
  split; [reflexivity|]. split; [reflexivity|]. split; [reflexivity|].
  split; [reflexivity|]. split; [reflexivity|].
  exact (proj1 (addToGroup_validation_order
                  allow allowMultiple has_at add_to_missing_group locals0 store0
                  "Nobody" ["b@x.com"] eq_refl eq_refl eq_refl eq_refl)
               eq_refl).
Defined.

Lemma missing_parameters_iff_witness :
  body_memberEmails add_without_emails = None /\
  fst (addToGroup deny denyMultiple has_at add_without_emails locals0 store0)
  = mkResponse 400
      (JError "The request body does not contain all the necessary attributes").
Proof.
  split; [reflexivity|].
  exact (proj2 (proj2 (missing_parameters_iff
                         deny denyMultiple has_at add_without_emails locals0 store0))
               (or_intror eq_refl)).
Defined.

Lemma deleteUser_outcomes_witness :
  body_email delete_alice = VString "a@x.com" /\
  authorised allow allowMultiple OpDeleteUser delete_alice locals0 = true /\
  validated has_at OpDeleteUser delete_alice store0 = true /\
  status (fst (deleteUser allow has_at delete_alice locals0 store0)) = 500 /\
  transactions (snd (deleteUser allow has_at delete_alice locals0 store0))
  = filter (fun t => negb (tr_email_is "a@x.com" t)) (transactions store0).
Proof.
  split; [reflexivity|]. split; [reflexivity|]. split; [reflexivity|].
  destruct (deleteUser_outcomes allow allowMultiple has_at delete_alice locals0 store0)
    as (_ & _ & H500 & _ & _ & _ & Htr).
  assert (Hs : status (fst (deleteUser allow has_at delete_alice locals0 store0)) = 500)
    by exact (proj2 H500 (conj eq_refl eq_refl)).
  split; [exact Hs|]. exact (Htr "a@x.com" eq_refl Hs).
Defined.

Lemma route_intent_is_text_after_last_slash_witness :
  slash_free "add" = true /\
  path add_bob = "/groups/Family" ++ "/" ++ "add" /\
  route_is add_bob "add" = true.
Proof.
  split; [reflexivity|]. split; [reflexivity|].
  exact (proj2 (proj2 (route_intent_is_text_after_last_slash add_bob)
                      "add" eq_refl)
               (or_intror (ex_intro _ "/groups/Family" eq_refl))).
Defined.

Lemma data_only_for_authorized_callers_witness :
  q_body (fst (getUsers allow get_family locals0 store0))
  = QUsers [user_view alice; user_view bob] VUndefined /\
  authorized (allow get_family locals0 "Admin") = true.
Proof.
  split; [reflexivity|].
  exact (proj1 (proj2 (data_only_for_authorized_callers
                         allow allowMultiple get_family locals0 store0))
               [user_view alice; user_view bob] VUndefined eq_refl).
Defined.
